(** * Cura USB printing: the printer output device and its manager

    A shallow embedding of [cura/PrinterOutputDevice.py] and
    [plugins/USBPrinting/USBPrinterOutputDeviceManager.py].

    Python objects become records, methods become computations in a small
    state / trace / exception monad: a method receives the object, returns
    either a value or a raised exception, the object as the method left it
    (mutations made before a [raise] persist, as in Python) and the list of
    the observable effects it performed (signals emitted, log lines,
    calls on collaborators). *)

From Stdlib Require Import ZArith QArith List String Ascii Bool Lia.
From Stdlib Require Import DecimalString.
Import ListNotations.

Open Scope string_scope.
Open Scope Z_scope.

(* ================================================================== *)
(** ** Python values, exceptions and effects *)

Module Py.

Inductive Exception : Type :=
| ZeroDivisionError
| IndexError
| KeyError
| FileNotFoundError
| NotImplementedError (msg : string).

Inductive Outcome (A : Type) : Type :=
| Return (a : A)
| Raise (e : Exception).
Arguments Return {A} a.
Arguments Raise {A} e.

(** A computation over a mutable object of type [S] whose effects are
    events of type [E]. *)
Definition Eff (S E A : Type) : Type := S -> Outcome A * S * list E.

Section Monad.
Context {S E : Type}.

Definition ret {A} (a : A) : Eff S E A := fun s => (Return a, s, []).

Definition bind {A B} (m : Eff S E A) (k : A -> Eff S E B) : Eff S E B :=
  fun s =>
    match m s with
    | (Return a, s1, t1) =>
        match k a s1 with
        | (r, s2, t2) => (r, s2, (t1 ++ t2)%list)
        end
    | (Raise e, s1, t1) => (Raise e, s1, t1)
    end.

Definition raise {A} (e : Exception) : Eff S E A := fun s => (Raise e, s, []).

Definition tell (e : E) : Eff S E unit := fun s => (Return tt, s, [e]).

Definition gets {A} (f : S -> A) : Eff S E A := fun s => (Return (f s), s, []).

Definition modify (f : S -> S) : Eff S E unit := fun s => (Return tt, f s, []).

(** Lift a pure Python operation that may raise. *)
Definition lift {A} (o : Outcome A) : Eff S E A := fun s => (o, s, []).

(** [try: body / except <handles>: handler]. *)
Definition try_except {A} (body : Eff S E A) (handles : Exception -> bool)
           (handler : Eff S E A) : Eff S E A :=
  fun s =>
    match body s with
    | (Return a, s1, t1) => (Return a, s1, t1)
    | (Raise e, s1, t1) =>
        if handles e then
          match handler s1 with
          | (r, s2, t2) => (r, s2, (t1 ++ t2)%list)
          end
        else (Raise e, s1, t1)
    end.

(** [for x in xs: body x]. *)
Fixpoint for_each {X} (xs : list X) (body : X -> Eff S E unit) : Eff S E unit :=
  match xs with
  | [] => ret tt
  | x :: rest => bind (body x) (fun _ => for_each rest body)
  end.

(** A [for] loop that threads a local variable [acc] through its body. *)
Fixpoint for_fold {X A} (xs : list X) (acc : A) (body : A -> X -> Eff S E A)
  : Eff S E A :=
  match xs with
  | [] => ret acc
  | x :: rest => bind (body acc x) (fun acc' => for_fold rest acc' body)
  end.

Definition when (b : bool) (m : Eff S E unit) : Eff S E unit :=
  if b then m else ret tt.
End Monad.

Definition is_FileNotFoundError (e : Exception) : bool :=
  match e with FileNotFoundError => true | _ => false end.

Definition is_KeyError (e : Exception) : bool :=
  match e with KeyError => true | _ => false end.

(** *** Lists *)

Fixpoint list_update {A} (l : list A) (i : nat) (v : A) : list A :=
  match l, i with
  | [], _ => []
  | _ :: rest, O => v :: rest
  | x :: rest, S j => x :: list_update rest j v
  end.

(** [l[index] = v]: a negative index counts from the end; an index outside
    [-len(l) .. len(l)-1] raises [IndexError] and leaves the list alone. *)
Definition list_setitem {A} (l : list A) (index : Z) (v : A) : Outcome (list A) :=
  let n := Z.of_nat (List.length l) in
  if (0 <=? index) && (index <? n) then Return (list_update l (Z.to_nat index) v)
  else if (- n <=? index) && (index <? 0) then Return (list_update l (Z.to_nat (n + index)) v)
  else Raise IndexError.

(** [x in l] for a list of strings. *)
Definition str_in (x : string) (l : list string) : bool :=
  existsb (String.eqb x) l.

(** *** Dictionaries with string keys

    Insertion-ordered, as Python dictionaries iterate: assigning to a key
    that is present replaces its value in place, assigning to a new key
    appends the entry. *)
Definition dict (V : Type) : Type := list (string * V).

Section Dict.
Context {V : Type}.

Fixpoint dict_get (d : dict V) (k : string) : option V :=
  match d with
  | [] => None
  | (k', v) :: rest => if String.eqb k k' then Some v else dict_get rest k
  end.

Definition dict_contains (d : dict V) (k : string) : bool :=
  match dict_get d k with Some _ => true | None => false end.

Fixpoint dict_set (d : dict V) (k : string) (v : V) : dict V :=
  match d with
  | [] => [(k, v)]
  | (k', v') :: rest =>
      if String.eqb k k' then (k', v) :: rest else (k', v') :: dict_set rest k v
  end.

Fixpoint dict_del (d : dict V) (k : string) : dict V :=
  match d with
  | [] => []
  | (k', v') :: rest =>
      if String.eqb k k' then rest else (k', v') :: dict_del rest k
  end.

Definition dict_keys (d : dict V) : list string := map fst d.

Definition dict_len (d : dict V) : Z := Z.of_nat (List.length d).

(** Truth value of a dictionary: empty is false. *)
Definition dict_truthy (d : dict V) : bool :=
  match d with [] => false | _ => true end.
End Dict.

(** [needle in hay] for strings: [needle] occurs somewhere in [hay]. *)
Fixpoint str_contains (needle hay : string) : bool :=
  String.prefix needle hay
  || match hay with
     | EmptyString => false
     | String _ rest => str_contains needle rest
     end.

(** [a / b] on integers: true division, exact here; raises when [b] is 0. *)
Definition truediv (a b : Z) : Outcome Q :=
  if b =? 0 then Raise ZeroDivisionError
  else Return (Qmake a (Z.to_pos b)).

End Py.

Declare Scope eff_scope.
Delimit Scope eff_scope with eff.
Notation "x <- m ;; k" := (Py.bind m (fun x => k))
  (at level 61, m at next level, right associativity) : eff_scope.
Notation "m ;;; k" := (Py.bind m (fun _ => k))
  (at level 61, right associativity) : eff_scope.
Open Scope eff_scope.

(* ================================================================== *)
(** ** cura/PrinterOutputDevice.py *)

(** [class ConnectionState(IntEnum)]. *)
Inductive ConnectionState : Type :=
| closed | connecting | connected | busy | error.

Definition ConnectionState_value (c : ConnectionState) : Z :=
  match c with
  | closed => 0 | connecting => 1 | connected => 2 | busy => 3 | error => 4
  end.

Definition ConnectionState_eqb (a b : ConnectionState) : bool :=
  ConnectionState_value a =? ConnectionState_value b.

Module PrinterOutputDevice.

(** The instance attributes set by [__init__]. *)
Record t : Type := mk {
  _id : string;
  _target_bed_temperature : Z;
  _bed_temperature : Z;
  _num_extruders : Z;
  _hotend_temperatures : list Z;
  _target_hotend_temperatures : list Z;
  _progress : Z;
  _head_x : Z;
  _head_y : Z;
  _head_z : Z;
  _connection_state : ConnectionState
}.

Definition __init__ (device_id : string) : t :=
  let num_extruders := 1 in
  {| _id := device_id;
     _target_bed_temperature := 0;
     _bed_temperature := 0;
     _num_extruders := num_extruders;
     _hotend_temperatures := repeat 0 (Z.to_nat num_extruders);
     _target_hotend_temperatures := repeat 0 (Z.to_nat num_extruders);
     _progress := 0;
     _head_x := 0;
     _head_y := 0;
     _head_z := 0;
     _connection_state := closed |}.

(** The Qt signals of the class. *)
Inductive Signal : Type :=
| bedTemperatureChanged
| targetBedTemperatureChanged
| progressChanged
| hotendTemperaturesChanged
| targetHotendTemperaturesChanged
| headPositionChanged
| connectionStateChanged (device_id : string).

Inductive Event : Type :=
| Emit (s : Signal)
| Log (level message : string).

Definition M (A : Type) : Type := Py.Eff t Event A.

Definition set_target_bed_temperature v (d : t) : t :=
  mk (_id d) v (_bed_temperature d) (_num_extruders d) (_hotend_temperatures d)
     (_target_hotend_temperatures d) (_progress d) (_head_x d) (_head_y d) (_head_z d)
     (_connection_state d).
Definition set_bed_temperature v (d : t) : t :=
  mk (_id d) (_target_bed_temperature d) v (_num_extruders d) (_hotend_temperatures d)
     (_target_hotend_temperatures d) (_progress d) (_head_x d) (_head_y d) (_head_z d)
     (_connection_state d).
Definition set_hotend_temperatures v (d : t) : t :=
  mk (_id d) (_target_bed_temperature d) (_bed_temperature d) (_num_extruders d) v
     (_target_hotend_temperatures d) (_progress d) (_head_x d) (_head_y d) (_head_z d)
     (_connection_state d).
Definition set_target_hotend_temperatures v (d : t) : t :=
  mk (_id d) (_target_bed_temperature d) (_bed_temperature d) (_num_extruders d)
     (_hotend_temperatures d) v (_progress d) (_head_x d) (_head_y d) (_head_z d)
     (_connection_state d).
Definition set_progress v (d : t) : t :=
  mk (_id d) (_target_bed_temperature d) (_bed_temperature d) (_num_extruders d)
     (_hotend_temperatures d) (_target_hotend_temperatures d) v (_head_x d) (_head_y d)
     (_head_z d) (_connection_state d).
Definition set_head_x v (d : t) : t :=
  mk (_id d) (_target_bed_temperature d) (_bed_temperature d) (_num_extruders d)
     (_hotend_temperatures d) (_target_hotend_temperatures d) (_progress d) v (_head_y d)
     (_head_z d) (_connection_state d).
Definition set_head_y v (d : t) : t :=
  mk (_id d) (_target_bed_temperature d) (_bed_temperature d) (_num_extruders d)
     (_hotend_temperatures d) (_target_hotend_temperatures d) (_progress d) (_head_x d) v
     (_head_z d) (_connection_state d).
Definition set_head_z v (d : t) : t :=
  mk (_id d) (_target_bed_temperature d) (_bed_temperature d) (_num_extruders d)
     (_hotend_temperatures d) (_target_hotend_temperatures d) (_progress d) (_head_x d)
     (_head_y d) v (_connection_state d).
Definition set_connection_state v (d : t) : t :=
  mk (_id d) (_target_bed_temperature d) (_bed_temperature d) (_num_extruders d)
     (_hotend_temperatures d) (_target_hotend_temperatures d) (_progress d) (_head_x d)
     (_head_y d) (_head_z d) v.

(** The implementation functions a subclass overrides ("This is an
    implementation function and should be overriden by children"). *)
Class Hooks : Type := {
  _homeHead : M unit;
  _homeBed : M unit;
  _setTargetBedTemperature : Z -> M unit;
  _setTargetHotendTemperature : Z -> Z -> M unit;
  _moveHead : Z -> Z -> Z -> Z -> M unit;
  _setHeadPosition : Z -> Z -> Z -> Z -> M unit;
  _setHeadX : Z -> Z -> M unit;
  _setHeadY : Z -> Z -> M unit;
  _setHeadZ : Z -> Z -> M unit
}.

Definition not_implemented (name : string) : M unit :=
  Py.tell (Log "w" (name ++ " is not implemented by this output device")).

(** The defaults of the base class: each logs a warning. *)
#[local] Instance Base : Hooks := {|
  _homeHead := not_implemented "_homeHead";
  _homeBed := not_implemented "_homeBed";
  _setTargetBedTemperature := fun _ => not_implemented "_setTargetBedTemperature";
  _setTargetHotendTemperature := fun _ _ => not_implemented "_setTargetHotendTemperature";
  _moveHead := fun _ _ _ _ => not_implemented "_moveHead";
  _setHeadPosition := fun _ _ _ _ => not_implemented "_setHeadPosition";
  _setHeadX := fun _ _ => not_implemented "_setHeadX";
  _setHeadY := fun _ _ => not_implemented "_setHeadY";
  _setHeadZ := fun _ _ => not_implemented "_setHeadZ"
|}.

Definition requestWrite : M unit :=
  Py.raise (Py.NotImplementedError "requestWrite needs to be implemented").
Definition connect : M unit :=
  Py.raise (Py.NotImplementedError "connect needs to be implemented").
Definition close : M unit :=
  Py.raise (Py.NotImplementedError "close needs to be implemented").

Section Final.
Context {H : Hooks}.

Definition setTargetBedTemperature (temperature : Z) : M unit :=
  _setTargetBedTemperature temperature ;;;
  Py.modify (set_target_bed_temperature temperature) ;;;
  Py.tell (Emit targetBedTemperatureChanged).

Definition homeHead : M unit := _homeHead.
Definition homeBed : M unit := _homeBed.

Definition _setBedTemperature (temperature : Z) : M unit :=
  Py.modify (set_bed_temperature temperature) ;;;
  Py.tell (Emit bedTemperatureChanged).

Definition setTargetHotendTemperature (index temperature : Z) : M unit :=
  _setTargetHotendTemperature index temperature ;;;
  targets <- Py.gets _target_hotend_temperatures ;;
  targets' <- Py.lift (Py.list_setitem targets index temperature) ;;
  Py.modify (set_target_hotend_temperatures targets') ;;;
  Py.tell (Emit targetHotendTemperaturesChanged).

Definition _setHotendTemperature (index temperature : Z) : M unit :=
  temps <- Py.gets _hotend_temperatures ;;
  temps' <- Py.lift (Py.list_setitem temps index temperature) ;;
  Py.modify (set_hotend_temperatures temps') ;;;
  Py.tell (Emit hotendTemperaturesChanged).

Definition setConnectionState (connection_state : ConnectionState) : M unit :=
  Py.modify (set_connection_state connection_state) ;;;
  device_id <- Py.gets _id ;;
  Py.tell (Emit (connectionStateChanged device_id)).

Definition _updateHeadPosition (x y z : Z) : M unit :=
  let position_changed := false in
  head_x <- Py.gets _head_x ;;
  position_changed <-
    (if negb (head_x =? x)
     then Py.modify (set_head_x x) ;;; Py.ret true
     else Py.ret position_changed) ;;
  head_y <- Py.gets _head_y ;;
  position_changed <-
    (if negb (head_y =? y)
     then Py.modify (set_head_y y) ;;; Py.ret true
     else Py.ret position_changed) ;;
  head_z <- Py.gets _head_z ;;
  position_changed <-
    (if negb (head_z =? z)
     then Py.modify (set_head_z z) ;;; Py.ret true
     else Py.ret position_changed) ;;
  Py.when position_changed (Py.tell (Emit headPositionChanged)).

Definition setHeadPosition (x y z : Z) (speed : Z) : M unit :=
  _setHeadPosition x y z speed.

Definition setHeadX (x : Z) (speed : Z) : M unit := _setHeadX x speed.

Definition setHeadY (y : Z) (speed : Z) : M unit := _setHeadY y speed.

Definition setHeadZ (z : Z) (speed : Z) : M unit := _setHeadY z speed.

Definition moveHead (x y z : Z) (speed : Z) : M unit := _moveHead x y z speed.

Definition progress : M Z := Py.gets _progress.

Definition setProgress (progress : Z) : M unit :=
  current <- Py.gets _progress ;;
  Py.when (negb (current =? progress))
    (Py.modify (set_progress progress) ;;; Py.tell (Emit progressChanged)).
End Final.

(** The keyword default [speed = 3000] of the head-positioning slots. *)
Definition default_speed : Z := 3000.

(** The read-only properties. *)
Definition bedTemperature : M Z := Py.gets _bed_temperature.
Definition targetBedTemperature : M Z := Py.gets _target_bed_temperature.
Definition targetHotendTemperatures : M (list Z) := Py.gets _target_hotend_temperatures.
Definition hotendTemperatures : M (list Z) := Py.gets _hotend_temperatures.
Definition connectionState : M ConnectionState := Py.gets _connection_state.
Definition headX : M Z := Py.gets _head_x.
Definition headY : M Z := Py.gets _head_y.
Definition headZ : M Z := Py.gets _head_z.

(** A call of one of the methods that return nothing, with its arguments. *)
Inductive Call : Type :=
| Call_requestWrite
| Call_connect
| Call_close
| Call_setTargetBedTemperature (temperature : Z)
| Call_setBedTemperature (temperature : Z)
| Call_setTargetHotendTemperature (index temperature : Z)
| Call_setHotendTemperature (index temperature : Z)
| Call_setConnectionState (connection_state : ConnectionState)
| Call_updateHeadPosition (x y z : Z)
| Call_setProgress (progress : Z)
| Call_homeHead
| Call_homeBed
| Call_moveHead (x y z speed : Z)
| Call_setHeadPosition (x y z speed : Z)
| Call_setHeadX (x speed : Z)
| Call_setHeadY (y speed : Z)
| Call_setHeadZ (z speed : Z).

Section Calls.
Context {H : Hooks}.

Definition call (c : Call) : M unit :=
  match c with
  | Call_requestWrite => requestWrite
  | Call_connect => connect
  | Call_close => close
  | Call_setTargetBedTemperature temperature => setTargetBedTemperature temperature
  | Call_setBedTemperature temperature => _setBedTemperature temperature
  | Call_setTargetHotendTemperature index temperature =>
      setTargetHotendTemperature index temperature
  | Call_setHotendTemperature index temperature => _setHotendTemperature index temperature
  | Call_setConnectionState connection_state => setConnectionState connection_state
  | Call_updateHeadPosition x y z => _updateHeadPosition x y z
  | Call_setProgress progress => setProgress progress
  | Call_homeHead => homeHead
  | Call_homeBed => homeBed
  | Call_moveHead x y z speed => moveHead x y z speed
  | Call_setHeadPosition x y z speed => setHeadPosition x y z speed
  | Call_setHeadX x speed => setHeadX x speed
  | Call_setHeadY y speed => setHeadY y speed
  | Call_setHeadZ z speed => setHeadZ z speed
  end.

(** A client that makes the calls one after the other and goes on after a
    call that raised: the device as the last call left it, and everything
    that was emitted or logged. *)
Fixpoint calls (cs : list Call) (d : t) : t * list Event :=
  match cs with
  | [] => (d, [])
  | c :: rest =>
      match call c d with
      | (_, d1, t1) =>
          match calls rest d1 with
          | (d2, t2) => (d2, (t1 ++ t2)%list)
          end
      end
  end.
End Calls.

(** The calls that only reach a motion hook. *)
Definition is_motion (c : Call) : bool :=
  match c with
  | Call_homeHead | Call_homeBed | Call_moveHead _ _ _ _
  | Call_setHeadPosition _ _ _ _ | Call_setHeadX _ _ | Call_setHeadY _ _
  | Call_setHeadZ _ _ => true
  | _ => false
  end.

(** The name of the hook a motion call ends in. *)
Definition motion_hook (c : Call) : string :=
  match c with
  | Call_homeHead => "_homeHead"
  | Call_homeBed => "_homeBed"
  | Call_moveHead _ _ _ _ => "_moveHead"
  | Call_setHeadPosition _ _ _ _ => "_setHeadPosition"
  | Call_setHeadX _ _ => "_setHeadX"
  | Call_setHeadY _ _ => "_setHeadY"
  | Call_setHeadZ _ _ => "_setHeadY"
  | _ => ""
  end.

(** Both hotend lists have one entry per extruder. *)
Definition arrays_sized (d : t) : Prop :=
  Z.of_nat (List.length (_hotend_temperatures d)) = _num_extruders d
  /\ Z.of_nat (List.length (_target_hotend_temperatures d)) = _num_extruders d.

End PrinterOutputDevice.

(* ================================================================== *)
(** ** plugins/USBPrinting/USBPrinterOutputDeviceManager.py *)

Module USBPrinterOutputDeviceManager.

Import Py.

(** What the manager reads from its surroundings.

    [platform_system] is [platform.system()]; [active_machine_id] is the id
    of the active machine instance's definition; [machine_heated_bed] is the
    truth value of its setting "machine_heated_bed".
    [Resources_getPath port name] is [Resources.getPath(Firmware, name)] as
    it answers while the device on [port] is being flashed: the path of the
    image, or [None] when the file is absent and the call raises
    [FileNotFoundError]. *)
Record Env : Type := {
  platform_system : string;
  active_machine_id : string;
  machine_heated_bed : bool;
  Resources_getPath : string -> string -> option string
}.

(** The window created from FirmwareUpdateWindow.qml. *)
Record FirmwareView : Type := { visible : bool }.

Record t : Type := mk {
  _serial_port_list : list string;
  _usb_output_devices : dict PrinterOutputDevice.t;
  _check_updates : bool;
  _firmware_view : option FirmwareView
}.

Definition __init__ : t :=
  {| _serial_port_list := [];
     _usb_output_devices := [];
     _check_updates := true;
     _firmware_view := None |}.

(** The effects of the manager on its collaborators.  The methods of
    [USBPrinterOutputDevice] ([connect], [close], [updateFirmware],
    the two-argument [setProgress], [getSerialPort]) belong to a class
    outside these sources: a call on the device registered under [port]
    is recorded, with its arguments. *)
Inductive Event : Type :=
| ShowMessage (text : string)
| Log (level message : string) (args : list string)
| CreateFirmwareView
| ShowFirmwareView
| CloseFirmwareView
| Device_connect (port : string)
| Device_close (port : string)
| Device_getSerialPort (port : string)
| Device_updateFirmware (port path : string)
| Device_setProgress (port : string) (progress max_progress : Z)
| Emit_addUSBOutputDeviceSignal (serial_port : string)
| Emit_connectionStateChanged
| Registry_addOutputDevice (device_id : string)
| Registry_removeOutputDevice (device_id : string).

Definition M (A : Type) : Type := Eff t Event A.

Definition set_serial_port_list v (m : t) : t :=
  mk v (_usb_output_devices m) (_check_updates m) (_firmware_view m).
Definition set_usb_output_devices v (m : t) : t :=
  mk (_serial_port_list m) v (_check_updates m) (_firmware_view m).
Definition set_check_updates v (m : t) : t :=
  mk (_serial_port_list m) (_usb_output_devices m) v (_firmware_view m).
Definition set_firmware_view v (m : t) : t :=
  mk (_serial_port_list m) (_usb_output_devices m) (_check_updates m) v.

(** [self._usb_output_devices[key]]: raises [KeyError] on a miss. *)
Definition device_at (key : string) : M PrinterOutputDevice.t :=
  devices <- gets _usb_output_devices ;;
  match dict_get devices key with
  | Some device => ret device
  | None => raise KeyError
  end.

(** The [progress] property. *)
Definition progress : M Q :=
  devices <- gets _usb_output_devices ;;
  let progress :=
    fold_left (fun progress item => progress + PrinterOutputDevice._progress (snd item))
              devices 0 in
  lift (truediv progress (dict_len devices)).

Definition spawnFirmwareInterface (serial_port : string) : M unit :=
  view <- gets _firmware_view ;;
  match view with
  | None =>
      tell CreateFirmwareView ;;;
      modify (set_firmware_view (Some {| visible := false |}))
  | Some _ => ret tt
  end ;;;
  modify (set_firmware_view (Some {| visible := true |})) ;;;
  tell ShowFirmwareView.

Section WithEnv.
Variable env : Env.

Definition machine_without_extras : dict string :=
  [ ("bq_witbox",                "MarlinWitbox.hex");
    ("bq_hephestos_2",           "MarlinHephestos2.hex");
    ("ultimaker_original",       "MarlinUltimaker-{baudrate}.hex");
    ("ultimaker_original_plus",  "MarlinUltimaker-UMOP-{baudrate}.hex");
    ("ultimaker2",               "MarlinUltimaker2.hex");
    ("ultimaker2_go",            "MarlinUltimaker2go.hex");
    ("ultimaker2plus",           "MarlinUltimaker2plus.hex");
    ("ultimaker2_extended",      "MarlinUltimaker2extended.hex");
    ("ultimaker2_extended_plus", "MarlinUltimaker2extended-plus.hex") ].

Definition machine_with_heated_bed : dict string :=
  [ ("ultimaker_original",       "MarlinUltimaker-HBK-{baudrate}.hex") ].

(** [str(n)] for an integer. *)
Definition str_of_int (n : Z) : string := NilZero.string_of_int (Z.to_int n).

(** [fmt.format(baudrate = value)] for the format strings of the two
    tables: literal text in which each replacement field "{baudrate}"
    is replaced by the value.  [skip] counts characters of a field still
    to be dropped. *)
Fixpoint format_from (skip : nat) (fmt : string) (value : string) : string :=
  match fmt with
  | EmptyString => EmptyString
  | String c rest =>
      match skip with
      | S k => format_from k rest value
      | O =>
          if String.prefix "{baudrate}" fmt
          then value ++ format_from 9 rest value
          else String c (format_from 0 rest value)
      end
  end.

Definition format (fmt : string) (baudrate : Z) : string :=
  format_from 0 fmt (str_of_int baudrate).

(** Truth value of [hex_file]: [None] and the empty string are false. *)
Definition hex_file_truthy (hex_file : option string) : bool :=
  match hex_file with
  | None => false
  | Some EmptyString => false
  | Some _ => true
  end.

Definition dict_getitem {V} (d : dict V) (key : string) : M V :=
  match dict_get d key with
  | Some v => ret v
  | None => raise KeyError
  end.

Definition _getDefaultFirmwareName : M string :=
  let machine_type := active_machine_id env in
  let baudrate :=
    if String.eqb (platform_system env) "Linux" then 115200 else 250000 in
  hex_file <-
    (if dict_contains machine_without_extras machine_type then
       if dict_contains machine_with_heated_bed machine_type && machine_heated_bed env
       then
         tell (Log "d" "Choosing firmware with heated bed enabled for machine %s."
                   [machine_type]) ;;;
         hex <- dict_getitem machine_with_heated_bed machine_type ;;
         ret (Some hex)
       else
         tell (Log "d" "Choosing basic firmware for machine %s." [machine_type]) ;;;
         hex <- dict_getitem machine_without_extras machine_type ;;
         ret (Some hex)
     else
       tell (Log "e" "There is no firmware for machine %s." [machine_type]) ;;;
       ret None) ;;
  match hex_file with
  | Some fmt =>
      if hex_file_truthy hex_file then ret (format fmt baudrate)
      else
        tell (Log "e" "Could not find any firmware for machine %s." [machine_type]) ;;;
        raise FileNotFoundError
  | None =>
      tell (Log "e" "Could not find any firmware for machine %s." [machine_type]) ;;;
      raise FileNotFoundError
  end.

(** [Resources.getPath(CuraApplication.ResourceTypes.Firmware, name)],
    evaluated while the device on [port] is served. *)
Definition getPath (port name : string) : M string :=
  match Resources_getPath env port name with
  | Some path => ret path
  | None => raise FileNotFoundError
  end.

(** [self._usb_output_devices[port].updateFirmware(Resources.getPath(...,
    self._getDefaultFirmwareName()))]: the device is looked up first, then
    the argument is evaluated, then the call is made. *)
Definition flash (port : string) : M unit :=
  _ <- device_at port ;;
  name <- _getDefaultFirmwareName ;;
  path <- getPath port name ;;
  tell (Device_updateFirmware port path).

Definition updateAllFirmware : M unit :=
  devices <- gets _usb_output_devices ;;
  if negb (dict_truthy devices) then
    tell (ShowMessage "Cannot update firmware, there were no connected printers found.")
  else
    spawnFirmwareInterface "" ;;;
    for_each (dict_keys devices) (fun printer_connection =>
      try_except
        (flash printer_connection)
        is_FileNotFoundError
        (_ <- device_at printer_connection ;;
         tell (Device_setProgress printer_connection 100 100) ;;;
         tell (Log "w" "No firmware found for printer %s" [printer_connection]))).

(** The [return True] after the [try] statement is reached exactly when
    the body of the [try] completes, so it is folded into the body. *)
Definition updateFirmwareBySerial (serial_port : string) : M bool :=
  devices <- gets _usb_output_devices ;;
  if dict_contains devices serial_port then
    _ <- device_at serial_port ;;
    tell (Device_getSerialPort serial_port) ;;;
    spawnFirmwareInterface serial_port ;;;
    try_except
      (flash serial_port ;;; ret true)
      is_FileNotFoundError
      (modify (set_firmware_view (Some {| visible := false |})) ;;;
       tell CloseFirmwareView ;;;
       tell (Log "e" "Could not find firmware required for this machine" []) ;;;
       ret false)
  else ret false.
End WithEnv.

(** [addOutputDevice], the slot connected to [addUSBOutputDeviceSignal].
    The device is built by the base constructor with the port as its id. *)
Definition addOutputDevice (serial_port : string) : M unit :=
  let device := PrinterOutputDevice.__init__ serial_port in
  tell (Device_connect serial_port) ;;;
  devices <- gets _usb_output_devices ;;
  modify (set_usb_output_devices (dict_set devices serial_port device)).

Section AddRemove.
(** [self.addUSBOutputDeviceSignal.emit]: what emitting does depends on
    how the signal reaches its slot. *)
Variable addUSBOutputDeviceSignal_emit : string -> M unit.

Definition _addRemovePorts (serial_ports : list string) : M unit :=
  for_each serial_ports (fun serial_port =>
    known <- gets _serial_port_list ;;
    when (negb (str_in serial_port known))
      (addUSBOutputDeviceSignal_emit serial_port)) ;;;
  modify (set_serial_port_list serial_ports) ;;;
  devices <- gets _usb_output_devices ;;
  devices_to_remove <-
    for_fold devices [] (fun devices_to_remove item =>
      let port := fst item in
      known <- gets _serial_port_list ;;
      if negb (str_in port known) then
        tell (Device_close port) ;;;
        ret (devices_to_remove ++ [port])%list
      else ret devices_to_remove) ;;
  for_each devices_to_remove (fun port =>
    devices <- gets _usb_output_devices ;;
    if dict_contains devices port
    then modify (set_usb_output_devices (dict_del devices port))
    else raise KeyError).
End AddRemove.

(** The ports a trace has announced through [addUSBOutputDeviceSignal]. *)
Definition announced (trace : list Event) : list string :=
  flat_map (fun e => match e with
                     | Emit_addUSBOutputDeviceSignal p => [p]
                     | _ => []
                     end) trace.

(** One scan cycle when the signal calls its slot at once (emitted on the
    thread that owns the manager). *)
Definition scan_cycle_direct (serial_ports : list string) : M unit :=
  _addRemovePorts addOutputDevice serial_ports.

(** One scan cycle when the signal is queued (emitted on the update
    thread): the announcements are handed to [addOutputDevice] in order
    once [_addRemovePorts] has returned. *)
Definition scan_cycle_queued (serial_ports : list string) : M unit :=
  fun m =>
    match _addRemovePorts (fun p => tell (Emit_addUSBOutputDeviceSignal p)) serial_ports m with
    | (Return _, m1, t1) =>
        match for_each (announced t1) addOutputDevice m1 with
        | (r, m2, t2) => (r, m2, (t1 ++ t2)%list)
        end
    | (Raise e, m1, t1) => (Raise e, m1, t1)
    end.

Definition _onConnectionStateChanged (serial_port : string) : M unit :=
  try_except
    (device <- device_at serial_port ;;
     (if ConnectionState_eqb (PrinterOutputDevice._connection_state device) connected
      then
        device <- device_at serial_port ;;
        tell (Registry_addOutputDevice (PrinterOutputDevice._id device))
      else tell (Registry_removeOutputDevice serial_port)) ;;;
     tell Emit_connectionStateChanged)
    is_KeyError
    (ret tt).

(** A connection-state report: the device object known under [port] runs
    [setConnectionState(state)].  The mapping holds the object itself, so
    the new state is visible through it; each [connectionStateChanged]
    the device emits reaches [_onConnectionStateChanged] with the id it
    carries.  A device that is not in the mapping still reports, with
    [port] as its id. *)
Definition report (port : string) (state : ConnectionState) : M unit :=
  devices <- gets _usb_output_devices ;;
  match dict_get devices port with
  | Some device =>
      match PrinterOutputDevice.setConnectionState state device with
      | (_, device', emitted) =>
          modify (set_usb_output_devices (dict_set devices port device')) ;;;
          for_each emitted (fun e =>
            match e with
            | PrinterOutputDevice.Emit (PrinterOutputDevice.connectionStateChanged device_id) =>
                _onConnectionStateChanged device_id
            | _ => ret tt
            end)
      end
  | None => _onConnectionStateChanged port
  end.

Definition reports (rs : list (string * ConnectionState)) : M unit :=
  for_each rs (fun r => report (fst r) (snd r)).

(** The calls a trace makes on the global output device registry. *)
Definition registry_calls (trace : list Event) : list Event :=
  filter (fun e => match e with
                   | Registry_addOutputDevice _ | Registry_removeOutputDevice _ => true
                   | _ => false
                   end) trace.

(** The [connectedPrinterList] property: the items appended to a fresh list
    model, each with its "name" and its "printer".  The manager attribute
    that keeps the model is not part of [t]. *)
Definition connectedPrinterList : M (list (string * PrinterOutputDevice.t)) :=
  devices <- gets _usb_output_devices ;;
  for_fold (dict_keys devices) [] (fun model connection =>
    device <- device_at connection ;;
    if ConnectionState_eqb (PrinterOutputDevice._connection_state device) connected
    then
      device <- device_at connection ;;
      ret (model ++ [(connection, device)])%list
    else ret model).

(** What [getSerialPortList] asks of the host.  [winreg_SERIALCOMM] is the
    registry key HARDWARE\DEVICEMAP\SERIALCOMM: [None] when opening it
    raises, else its values as (name, data) in the order [EnumValue]
    numbers them; [glob_glob] is [glob.glob]. *)
Record Host : Type := {
  host_system : string;
  winreg_SERIALCOMM : option (list (string * string));
  glob_glob : string -> list string
}.

(** The [while True] loop over [winreg.EnumValue(key, i)]: it takes the
    values in order and ends when [EnumValue] raises past the last one. *)
Fixpoint enum_values (only_list_usb : bool) (values : list (string * string))
         (base_list : list string) : list string :=
  match values with
  | [] => base_list
  | value :: rest =>
      enum_values only_list_usb rest
        (if negb only_list_usb || str_contains "USBSER" (fst value)
         then (base_list ++ [snd value])%list
         else base_list)
  end.

(** [getSerialPortList]; whatever is raised on the Windows branch is
    swallowed by [except Exception: pass]. *)
Definition getSerialPortList (host : Host) (only_list_usb : bool) : list string :=
  let base_list := [] in
  if String.eqb (host_system host) "Windows" then
    match winreg_SERIALCOMM host with
    | Some values => enum_values only_list_usb values base_list
    | None => base_list
    end
  else if only_list_usb then
    let base_list :=
      (base_list ++ glob_glob host "/dev/ttyUSB*" ++ glob_glob host "/dev/ttyACM*"
                 ++ glob_glob host "/dev/cu.usb*")%list in
    filter (fun s => negb (str_contains "Bluetooth" s)) base_list
  else
    (base_list ++ glob_glob host "/dev/ttyUSB*" ++ glob_glob host "/dev/ttyACM*"
               ++ glob_glob host "/dev/cu.*" ++ glob_glob host "/dev/tty.usb*"
               ++ glob_glob host "/dev/rfcomm*" ++ glob_glob host "/dev/serial/by-id/*")%list.


End USBPrinterOutputDeviceManager.

(* ================================================================== *)
(** ** What is observed of the manager

    Runs of the manager's methods are compared against the descriptions
    below: what a round of a loop does, which calls reach the registry,
    which condition a manager satisfies between scan cycles. *)

Module ManagerDefs.

Import Py USBPrinterOutputDeviceManager.

(** The sum the [progress] property accumulates. *)
Definition total_progress (devices : dict PrinterOutputDevice.t) : Z :=
  fold_left (fun progress item => progress + PrinterOutputDevice._progress (snd item))
            devices 0.

(** What resolution returns and logs; neither depends on the manager. *)
Definition firmware_result (env : Env) : Outcome string :=
  fst (fst (_getDefaultFirmwareName env __init__)).

(** The log lines of one resolution. *)
Definition firmware_log (env : Env) : list Event :=
  snd (_getDefaultFirmwareName env __init__).

(** What the [except] clause of the batch loop does for one device. *)
Definition marked_failed (port : string) : list Event :=
  [Device_setProgress port 100 100;
   Log "w" "No firmware found for printer %s" [port]].

(** What one round of the batch loop does for the device on [port]. *)
Definition served (env : Env) (port : string) : list Event :=
  (firmware_log env ++
   match firmware_result env with
   | Return name =>
       match Resources_getPath env port name with
       | Some path => [Device_updateFirmware port path]
       | None => marked_failed port
       end
   | Raise _ => marked_failed port
   end)%list.

(** What [spawnFirmwareInterface] does: the view is created on first use
    only, and shown. *)
Definition view_events (m : t) : list Event :=
  match _firmware_view m with
  | None => [CreateFirmwareView; ShowFirmwareView]
  | Some _ => [ShowFirmwareView]
  end.

(** The claim that a machine id without a base table entry fails the
    batch as a whole: nobody is flashed, the user is shown a message, and
    no device is dealt with on its own. *)
Definition missing_base_entry_is_batch_fatal (env : Env) (m : t) : Prop :=
  let trace := snd (updateAllFirmware env m) in
  (forall port path, ~ In (Device_updateFirmware port path) trace)
  /\ (exists text, In (ShowMessage text) trace)
  /\ (forall port progress max_progress,
         ~ In (Device_setProgress port progress max_progress) trace).

(** A manager tracking two printers. *)
Definition two_printers : t :=
  mk ["/dev/ttyUSB0"; "/dev/ttyACM0"]
     [("/dev/ttyUSB0", PrinterOutputDevice.__init__ "/dev/ttyUSB0");
      ("/dev/ttyACM0", PrinterOutputDevice.__init__ "/dev/ttyACM0")]
     true None.

(** The active machine is one the base table does not list. *)
Definition unknown_machine : Env :=
  {| platform_system := "Linux";
     active_machine_id := "prusa_i3";
     machine_heated_bed := false;
     Resources_getPath := fun _ name => Some ("/firmware/" ++ name) |}.

(** An Ultimaker 2 on Linux whose image is absent while the first printer
    is served and present afterwards. *)
Definition one_image_missing : Env :=
  {| platform_system := "Linux";
     active_machine_id := "ultimaker2";
     machine_heated_bed := false;
     Resources_getPath := fun port name =>
       if String.eqb port "/dev/ttyUSB0" then None else Some ("/firmware/" ++ name) |}.

(** Every tracked device carries the port it is registered under as its
    id, as [addOutputDevice] builds it. *)
Definition well_keyed (m : t) : Prop :=
  forall port device,
    dict_get (_usb_output_devices m) port = Some device ->
    PrinterOutputDevice._id device = port.

(** The registry call one report causes. *)
Definition registry_call_for (m : t) (r : string * ConnectionState) : list Event :=
  if dict_contains (_usb_output_devices m) (fst r) then
    [if ConnectionState_eqb (snd r) connected
     then Registry_addOutputDevice (fst r)
     else Registry_removeOutputDevice (fst r)]
  else [].

(** [no_double last calls]: no device is published twice, or unpublished
    twice, without the opposite call in between.  [last] remembers the
    latest call per device ([true] for a publish). *)
Fixpoint no_double (last : dict bool) (calls : list Event) : bool :=
  match calls with
  | [] => true
  | Registry_addOutputDevice device_id :: rest =>
      match dict_get last device_id with
      | Some true => false
      | _ => no_double (dict_set last device_id true) rest
      end
  | Registry_removeOutputDevice device_id :: rest =>
      match dict_get last device_id with
      | Some false => false
      | _ => no_double (dict_set last device_id false) rest
      end
  | _ :: rest => no_double last rest
  end.

(** The claim: whatever is reported, the registry never sees a double
    publish or a double unpublish. *)
Definition published_once_per_connection (m : t) : Prop :=
  forall rs, no_double [] (registry_calls (snd (reports rs m))) = true.

(** A manager tracking one printer. *)
Definition one_printer : t :=
  mk ["/dev/ttyUSB0"]
     [("/dev/ttyUSB0", PrinterOutputDevice.__init__ "/dev/ttyUSB0")]
     true None.

(** The tracked ports are pairwise distinct and are exactly the ports of
    the last scan. *)
Definition tracks_known_ports (m : t) : Prop :=
  NoDup (dict_keys (_usb_output_devices m))
  /\ (forall port, In port (dict_keys (_usb_output_devices m))
                   <-> In port (_serial_port_list m)).

(** The loops of [_addRemovePorts], named; the first announces the ports
    that are new. *)
Definition announce_new (emit : string -> M unit) (serial_ports : list string) : M unit :=
  for_each serial_ports (fun serial_port =>
    known <- gets _serial_port_list ;;
    when (negb (str_in serial_port known)) (emit serial_port)).

(** The loop that closes the devices whose port is gone and collects
    their ports. *)
Definition collect_missing (devices : dict PrinterOutputDevice.t) (acc : list string)
  : M (list string) :=
  for_fold devices acc (fun devices_to_remove item =>
    let port := fst item in
    known <- gets _serial_port_list ;;
    if negb (str_in port known) then
      tell (Device_close port) ;;;
      ret (devices_to_remove ++ [port])%list
    else ret devices_to_remove).

(** The loop that deletes the collected ports from the mapping. *)
Definition delete_all (devices_to_remove : list string) : M unit :=
  for_each devices_to_remove (fun port =>
    devices <- gets _usb_output_devices ;;
    if dict_contains devices port
    then modify (set_usb_output_devices (dict_del devices port))
    else raise KeyError).

(** [_addRemovePorts] from the assignment to [_serial_port_list] on. *)
Definition drop_missing (serial_ports : list string) : M unit :=
  modify (set_serial_port_list serial_ports) ;;;
  devices <- gets _usb_output_devices ;;
  devices_to_remove <- collect_missing devices [] ;;
  delete_all devices_to_remove.

(** The ports of [ports] that are not among [known]. *)
Definition missing (known : list string) (ports : list string) : list string :=
  filter (fun port => negb (str_in port known)) ports.

(** The manager after the scans [scans], then [last], each handled by
    [cycle]: every cycle returned, the tracked ports are pairwise
    distinct, they are exactly the ports of [last], and [last] is the
    stored port list. *)
Definition consistent_after (cycle : list string -> M unit)
           (scans : list (list string)) (last : list string) : Prop :=
  exists m trace,
    for_each (scans ++ [last]) cycle __init__ = (Return tt, m, trace)
    /\ NoDup (dict_keys (_usb_output_devices m))
    /\ (forall port, In port (dict_keys (_usb_output_devices m)) <-> In port last)
    /\ _serial_port_list m = last
    /\ incl (dict_keys (_usb_output_devices m)) (_serial_port_list m).

(** What happens to a manager while it runs: a scan is handled, or a device
    reports a connection state. *)
Inductive Action : Type :=
| Scan (serial_ports : list string)
| Report (port : string) (state : ConnectionState).

Definition act (a : Action) : M unit :=
  match a with
  | Scan serial_ports => scan_cycle_queued serial_ports
  | Report port state => report port state
  end.

(** The item [connectedPrinterList] appends for one key of the mapping, if
    any. *)
Definition listed (devices : dict PrinterOutputDevice.t) (connection : string)
  : list (string * PrinterOutputDevice.t) :=
  match dict_get devices connection with
  | Some device =>
      if ConnectionState_eqb (PrinterOutputDevice._connection_state device) connected
      then [(connection, device)]
      else []
  | None => []
  end.


End ManagerDefs.

(* ================================================================== *)
(** ** Properties of the printer output device *)

Module PrinterOutputDeviceFacts.

Import Py PrinterOutputDevice.

Lemma list_update_length {A} (l : list A) (i : nat) (v : A) :
  List.length (list_update l i v) = List.length l.
Proof.
  revert i; induction l as [|x l IH]; intros [|i]; simpl; auto.
Qed.

Lemma list_update_nth_error {A} (l : list A) (i : nat) (v : A) :
  (i < List.length l)%nat -> nth_error (list_update l i v) i = Some v.
Proof.
  revert i; induction l as [|x l IH]; intros [|i] Hi; simpl in *; try lia; auto.
  apply IH; lia.
Qed.

Lemma list_setitem_high {A} (l : list A) (index : Z) (v : A) :
  Z.of_nat (List.length l) <= index -> list_setitem l index v = Raise IndexError.
Proof.
  intros Hi. unfold list_setitem.
  replace (index <? Z.of_nat (List.length l)) with false
    by (symmetry; apply Z.ltb_ge; lia).
  replace (index <? 0) with false by (symmetry; apply Z.ltb_ge; lia).
  now rewrite !andb_false_r.
Qed.

Lemma list_setitem_negative {A} (l : list A) (index : Z) (v : A) :
  - Z.of_nat (List.length l) <= index < 0 ->
  list_setitem l index v =
    Return (list_update l (Z.to_nat (Z.of_nat (List.length l) + index)) v).
Proof.
  intros [Hlo Hhi]. unfold list_setitem.
  replace (0 <=? index) with false by (symmetry; apply Z.leb_gt; lia).
  replace (- Z.of_nat (List.length l) <=? index) with true
    by (symmetry; apply Z.leb_le; lia).
  replace (index <? 0) with true by (symmetry; apply Z.ltb_lt; lia).
  reflexivity.
Qed.

(** C7: [_updateHeadPosition x y z] leaves the head at [(x, y, z)] and every
    other attribute alone; it emits [headPositionChanged] once when at
    least one of the three axes differed from the stored one, however many
    did, and emits nothing when none differed. *)
Theorem updateHeadPosition_one_notification :
  forall (d : t) (x y z : Z),
    _updateHeadPosition x y z d =
      (Return tt,
       mk (_id d) (_target_bed_temperature d) (_bed_temperature d) (_num_extruders d)
          (_hotend_temperatures d) (_target_hotend_temperatures d) (_progress d)
          x y z (_connection_state d),
       if negb (_head_x d =? x) || negb (_head_y d =? y) || negb (_head_z d =? z)
       then [Emit headPositionChanged] else []).
Proof.
  intros [i tb b n h th p hx hy hz c] x y z.
  unfold _updateHeadPosition, bind, gets; simpl.
  destruct (hx =? x) eqn:Ex; simpl;
    destruct (hy =? y) eqn:Ey; simpl;
    destruct (hz =? z) eqn:Ez; simpl;
    repeat match goal with
           | E : (_ =? _) = true |- _ => apply Z.eqb_eq in E; subst
           end;
    reflexivity.
Qed.

(** C8: [setHeadZ z speed] runs the Y hook [_setHeadY z speed], whatever
    the hooks are; on the base class this is observably not the Z hook. *)
Theorem setHeadZ_runs_the_Y_hook :
  (forall (H : Hooks) (z speed : Z) (d : t),
      setHeadZ z speed d = _setHeadY z speed d)
  /\ (forall (z speed : Z) (d : t),
         setHeadZ (H := Base) z speed d =
           (Return tt, d, [Log "w" "_setHeadY is not implemented by this output device"])
         /\ setHeadZ (H := Base) z speed d <> _setHeadZ (Hooks := Base) z speed d).
Proof.
  split.
  - reflexivity.
  - intros z speed d. split; [reflexivity|].
    cbv. intros Heq. inversion Heq.
Qed.

(** C9: when the implementation hook returns normally, leaving the device
    as [d1] with as many stored targets as extruders, then
    [setTargetHotendTemperature index temperature]
    - for an index at or above the extruder count raises [IndexError]
      after the hook has run: the device is exactly as the hook left it
      and nothing was emitted beyond what the hook did;
    - for a negative index not below minus the extruder count overwrites
      the element counted from the end and emits
      [targetHotendTemperaturesChanged]. *)
Theorem setTargetHotendTemperature_index_out_of_range :
  forall (H : Hooks) (d d1 : t) (t1 : list Event) (index temperature : Z),
    _setTargetHotendTemperature index temperature d = (Return tt, d1, t1) ->
    Z.of_nat (List.length (_target_hotend_temperatures d1)) = _num_extruders d1 ->
    (_num_extruders d1 <= index ->
       setTargetHotendTemperature index temperature d = (Raise IndexError, d1, t1))
    /\ (- _num_extruders d1 <= index < 0 ->
        exists targets,
          setTargetHotendTemperature index temperature d =
            (Return tt, set_target_hotend_temperatures targets d1,
             (t1 ++ [Emit targetHotendTemperaturesChanged])%list)
          /\ targets =
               list_update (_target_hotend_temperatures d1)
                           (Z.to_nat (_num_extruders d1 + index)) temperature
          /\ nth_error targets (Z.to_nat (_num_extruders d1 + index)) = Some temperature
          /\ List.length targets = List.length (_target_hotend_temperatures d1)).
Proof.
  intros H d d1 t1 index temperature Hhook Hlen. split.
  - intros Hhigh.
    unfold setTargetHotendTemperature, bind. rewrite Hhook.
    unfold gets, lift. rewrite list_setitem_high by lia.
    simpl. now rewrite app_nil_r.
  - intros Hneg.
    eexists. split; [|split; [reflexivity|split]].
    + unfold setTargetHotendTemperature, bind. rewrite Hhook.
      unfold gets, lift. rewrite list_setitem_negative by lia.
      unfold modify, tell. simpl. rewrite Hlen. reflexivity.
    + apply list_update_nth_error. lia.
    + apply list_update_length.
Qed.

Lemma setTargetHotendTemperature_index_out_of_range_witness :
  setTargetHotendTemperature (H := Base) 1 210 (__init__ "/dev/ttyUSB0") =
    (Raise IndexError, __init__ "/dev/ttyUSB0",
     [Log "w" "_setTargetHotendTemperature is not implemented by this output device"])
  /\ exists targets,
       setTargetHotendTemperature (H := Base) (-1) 210 (__init__ "/dev/ttyUSB0") =
         (Return tt, set_target_hotend_temperatures targets (__init__ "/dev/ttyUSB0"),
          [Log "w" "_setTargetHotendTemperature is not implemented by this output device";
           Emit targetHotendTemperaturesChanged])
       /\ targets = [210].
Proof.
  split.
  - apply (setTargetHotendTemperature_index_out_of_range Base
             (__init__ "/dev/ttyUSB0") (__init__ "/dev/ttyUSB0")
             [Log "w" "_setTargetHotendTemperature is not implemented by this output device"]
             1 210); [reflexivity | reflexivity | simpl; lia].
  - destruct (setTargetHotendTemperature_index_out_of_range Base
             (__init__ "/dev/ttyUSB0") (__init__ "/dev/ttyUSB0")
             [Log "w" "_setTargetHotendTemperature is not implemented by this output device"]
             (-1) 210) as [_ Hneg]; [reflexivity | reflexivity |].
    destruct Hneg as [targets [Hrun [Heq _]]]; [simpl; lia|].
    exists targets. split; [exact Hrun | exact Heq].
Defined.

End PrinterOutputDeviceFacts.

(* ================================================================== *)
(** ** Properties of dictionaries and loops *)

Module PyFacts.

Import Py.

Lemma str_in_In (x : string) (l : list string) : str_in x l = true <-> In x l.
Proof.
  unfold str_in. rewrite existsb_exists. split.
  - intros [y [Hy Heq]]. apply String.eqb_eq in Heq. now subst.
  - intros Hx. exists x. split; [assumption | apply String.eqb_refl].
Qed.

Lemma str_in_false (x : string) (l : list string) : str_in x l = false <-> ~ In x l.
Proof.
  rewrite <- str_in_In. destruct (str_in x l); split; congruence.
Qed.

Section Dict.
Context {V : Type}.
Implicit Types (d : dict V) (k q : string) (v : V).

Lemma dict_contains_In d k : dict_contains d k = true <-> In k (dict_keys d).
Proof.
  unfold dict_contains. induction d as [|[k' v'] d IH]; simpl.
  - split; [discriminate | tauto].
  - destruct (String.eqb_spec k k') as [->|Hne].
    + split; auto.
    + rewrite IH. split; [auto | intros [Heq|Hin]; [congruence | assumption]].
Qed.

Lemma dict_contains_false d k : dict_contains d k = false <-> ~ In k (dict_keys d).
Proof.
  rewrite <- dict_contains_In. destruct (dict_contains d k); split; congruence.
Qed.

Lemma dict_get_In d k : In k (dict_keys d) -> exists v, dict_get d k = Some v.
Proof.
  intros Hin. apply dict_contains_In in Hin. unfold dict_contains in Hin.
  destruct (dict_get d k) as [v|]; [now exists v | discriminate].
Qed.

Lemma dict_get_set_same d k v : dict_get (dict_set d k v) k = Some v.
Proof.
  induction d as [|[k' v'] d IH]; simpl.
  - now rewrite String.eqb_refl.
  - destruct (String.eqb_spec k k') as [->|Hne]; simpl.
    + now rewrite String.eqb_refl.
    + destruct (String.eqb_spec k k'); [congruence | exact IH].
Qed.

Lemma dict_get_set_other d k v q :
  q <> k -> dict_get (dict_set d k v) q = dict_get d q.
Proof.
  intros Hne. induction d as [|[k' v'] d IH]; simpl.
  - destruct (String.eqb_spec q k); [congruence | reflexivity].
  - destruct (String.eqb_spec k k') as [->|Hkk']; simpl.
    + destruct (String.eqb_spec q k'); [congruence | reflexivity].
    + destruct (String.eqb_spec q k'); [reflexivity | exact IH].
Qed.

Lemma dict_contains_keys (d d' : dict V) k :
  dict_keys d = dict_keys d' -> dict_contains d k = dict_contains d' k.
Proof.
  intros Hkeys.
  destruct (dict_contains d k) eqn:Hd, (dict_contains d' k) eqn:Hd'; try reflexivity.
  - apply dict_contains_In in Hd. rewrite Hkeys in Hd.
    apply dict_contains_In in Hd. congruence.
  - apply dict_contains_In in Hd'. rewrite <- Hkeys in Hd'.
    apply dict_contains_In in Hd'. congruence.
Qed.

Lemma dict_keys_set d k v :
  dict_keys (dict_set d k v) =
    if dict_contains d k then dict_keys d else (dict_keys d ++ [k])%list.
Proof.
  unfold dict_contains. induction d as [|[k' v'] d IH]; simpl.
  - reflexivity.
  - destruct (String.eqb_spec k k') as [->|Hne]; simpl.
    + reflexivity.
    + rewrite IH. now destruct (dict_get d k).
Qed.

Lemma dict_keys_set_In d k v q :
  In q (dict_keys (dict_set d k v)) <-> q = k \/ In q (dict_keys d).
Proof.
  rewrite dict_keys_set. destruct (dict_contains d k) eqn:Hk.
  - apply dict_contains_In in Hk. split; [auto | intros [->|]; assumption].
  - rewrite in_app_iff. simpl. intuition congruence.
Qed.

Lemma dict_keys_set_NoDup d k v :
  NoDup (dict_keys d) -> NoDup (dict_keys (dict_set d k v)).
Proof.
  intros Hnd. rewrite dict_keys_set. destruct (dict_contains d k) eqn:Hk.
  - assumption.
  - apply dict_contains_false in Hk.
    apply NoDup_app; simpl.
    + assumption.
    + constructor; [tauto | constructor].
    + intros x Hx [<-|[]]. contradiction.
Qed.

Lemma dict_keys_del d k :
  NoDup (dict_keys d) ->
  dict_keys (dict_del d k) = filter (fun q => negb (String.eqb k q)) (dict_keys d).
Proof.
  induction d as [|[k' v'] d IH]; simpl; intros Hnd.
  - reflexivity.
  - inversion Hnd as [|? ? Hnotin Hnd']; subst.
    destruct (String.eqb_spec k k') as [->|Hne]; simpl.
    + symmetry. apply forallb_filter_id. apply forallb_forall.
      intros q Hq. destruct (String.eqb_spec k' q); [subst; contradiction | reflexivity].
    + f_equal. now apply IH.
Qed.
End Dict.

Section Loops.
Context {S E : Type}.

(** A loop whose body neither raises nor changes the object just
    concatenates what each round does. *)
Lemma for_each_steady {X} (xs : list X) (body : X -> Eff S E unit)
      (s : S) (f : X -> list E) :
  (forall x, In x xs -> body x s = (Return tt, s, f x)) ->
  for_each xs body s = (Return tt, s, flat_map f xs).
Proof.
  induction xs as [|x xs IH]; simpl; intros Hbody.
  - reflexivity.
  - unfold bind. rewrite (Hbody x) by auto. rewrite IH by auto. reflexivity.
Qed.
End Loops.

End PyFacts.

(* ================================================================== *)
(** ** Properties of the USB printer manager *)

Module ManagerFacts.

Import Py PyFacts USBPrinterOutputDeviceManager ManagerDefs.

(** *** Aggregated progress *)

(** With at least one tracked device the property is the mean of the
    devices' progress values. *)
Lemma progress_is_mean (m : t) :
  _usb_output_devices m <> [] ->
  exists mean,
    progress m = (Return mean, m, [])
    /\ (mean == inject_Z (total_progress (_usb_output_devices m))
                / inject_Z (dict_len (_usb_output_devices m)))%Q.
Proof.
  intros Hne. unfold progress, bind, gets, lift, truediv. simpl.
  destruct (_usb_output_devices m) as [|item rest] eqn:Hdev; [congruence|].
  assert (Hpos : 0 < dict_len (item :: rest)) by (unfold dict_len; simpl; lia).
  destruct (Z.eqb_spec (dict_len (item :: rest)) 0) as [H0|_]; [lia|].
  eexists. split; [reflexivity|].
  rewrite Qmake_Qdiv. rewrite Z2Pos.id by assumption. reflexivity.
Qed.

(** C1: with no tracked device, reading [progress] raises
    [ZeroDivisionError]; no value is returned. *)
Theorem progress_without_devices_raises :
  forall (ports : list string) (check : bool) (view : option FirmwareView),
    progress (mk ports [] check view) =
      (Raise ZeroDivisionError, mk ports [] check view, []).
Proof. reflexivity. Qed.

(** *** Firmware resolution *)

(** C6: for machine id "ultimaker_original" the resolved image is the
    heated-bed file name when the profile's heated-bed setting is true and
    the base file name otherwise, with 115200 substituted on Linux and
    250000 on any other platform; the manager is left as it was. *)
Theorem firmware_name_for_ultimaker_original :
  forall (env : Env) (m : t),
    active_machine_id env = "ultimaker_original" ->
    let baudrate :=
      if String.eqb (platform_system env) "Linux" then "115200" else "250000" in
    _getDefaultFirmwareName env m =
      if machine_heated_bed env
      then (Return ("MarlinUltimaker-HBK-" ++ baudrate ++ ".hex"), m,
            [Log "d" "Choosing firmware with heated bed enabled for machine %s."
                 ["ultimaker_original"]])
      else (Return ("MarlinUltimaker-" ++ baudrate ++ ".hex"), m,
            [Log "d" "Choosing basic firmware for machine %s." ["ultimaker_original"]]).
Proof.
  intros env m Hid. unfold _getDefaultFirmwareName. rewrite Hid.
  destruct (machine_heated_bed env);
    destruct (String.eqb (platform_system env) "Linux"); reflexivity.
Qed.

Lemma firmware_name_for_ultimaker_original_witness :
  _getDefaultFirmwareName
    {| platform_system := "Linux"; active_machine_id := "ultimaker_original";
       machine_heated_bed := true; Resources_getPath := fun _ _ => None |} __init__
  = (Return "MarlinUltimaker-HBK-115200.hex", __init__,
     [Log "d" "Choosing firmware with heated bed enabled for machine %s."
          ["ultimaker_original"]])
  /\ _getDefaultFirmwareName
    {| platform_system := "Windows"; active_machine_id := "ultimaker_original";
       machine_heated_bed := false; Resources_getPath := fun _ _ => None |} __init__
  = (Return "MarlinUltimaker-250000.hex", __init__,
     [Log "d" "Choosing basic firmware for machine %s." ["ultimaker_original"]]).
Proof.
  split.
  - apply (firmware_name_for_ultimaker_original
             {| platform_system := "Linux"; active_machine_id := "ultimaker_original";
                machine_heated_bed := true; Resources_getPath := fun _ _ => None |}
             __init__). reflexivity.
  - apply (firmware_name_for_ultimaker_original
             {| platform_system := "Windows"; active_machine_id := "ultimaker_original";
                machine_heated_bed := false; Resources_getPath := fun _ _ => None |}
             __init__). reflexivity.
Defined.

(** *** Single-device firmware update *)

(** C10: for a port that is not a key of the device mapping,
    [updateFirmwareBySerial] returns [False]; the manager is unchanged and
    the trace is empty: no firmware view, no resolution, no call on any
    device. *)
Theorem updateFirmwareBySerial_unknown_port :
  forall (env : Env) (m : t) (serial_port : string),
    ~ In serial_port (dict_keys (_usb_output_devices m)) ->
    updateFirmwareBySerial env serial_port m = (Return false, m, []).
Proof.
  intros env m serial_port Hnotin.
  apply dict_contains_false in Hnotin.
  unfold updateFirmwareBySerial, bind, gets. simpl.
  rewrite Hnotin. reflexivity.
Qed.

Lemma updateFirmwareBySerial_unknown_port_witness :
  updateFirmwareBySerial
    {| platform_system := "Linux"; active_machine_id := "ultimaker2";
       machine_heated_bed := false; Resources_getPath := fun _ name => Some name |}
    "/dev/ttyACM1"
    (mk ["/dev/ttyUSB0"] [("/dev/ttyUSB0", PrinterOutputDevice.__init__ "/dev/ttyUSB0")]
        true None)
  = (Return false,
     mk ["/dev/ttyUSB0"] [("/dev/ttyUSB0", PrinterOutputDevice.__init__ "/dev/ttyUSB0")]
        true None,
     []).
Proof.
  apply updateFirmwareBySerial_unknown_port.
  simpl. intros [Heq|[]]. discriminate Heq.
Defined.

(** *** Batch firmware update *)

Lemma dict_contains_get {V} (d : dict V) (k : string) :
  dict_contains d k = true -> exists v, dict_get d k = Some v.
Proof.
  unfold dict_contains. destruct (dict_get d k) as [v|]; [eauto | discriminate].
Qed.

Lemma getDefaultFirmwareName_run (env : Env) (m : t) :
  _getDefaultFirmwareName env m = (firmware_result env, m, firmware_log env).
Proof.
  unfold firmware_result, firmware_log, _getDefaultFirmwareName, bind, dict_getitem.
  destruct (dict_contains machine_without_extras (active_machine_id env)); [|reflexivity].
  destruct (dict_contains machine_with_heated_bed (active_machine_id env)
            && machine_heated_bed env).
  - unfold tell.
    destruct (dict_get machine_with_heated_bed (active_machine_id env)) as [[|c hex]|];
      reflexivity.
  - unfold tell.
    destruct (dict_get machine_without_extras (active_machine_id env)) as [[|c hex]|];
      reflexivity.
Qed.

(** Resolution fails in one way only. *)
Lemma firmware_result_raises (env : Env) (e : Exception) :
  firmware_result env = Raise e -> e = FileNotFoundError.
Proof.
  unfold firmware_result, _getDefaultFirmwareName, bind, dict_getitem.
  destruct (dict_contains machine_without_extras (active_machine_id env)) eqn:Hbase.
  - destruct (dict_contains machine_with_heated_bed (active_machine_id env)
              && machine_heated_bed env) eqn:Hbed.
    + apply andb_prop in Hbed. destruct Hbed as [Hbed _].
      apply dict_contains_get in Hbed. destruct Hbed as [hex Hhex].
      unfold tell. rewrite Hhex. destruct hex; simpl; congruence.
    + apply dict_contains_get in Hbase. destruct Hbase as [hex Hhex].
      unfold tell. rewrite Hhex. destruct hex; simpl; congruence.
  - simpl. congruence.
Qed.

Lemma spawnFirmwareInterface_run (serial_port : string) (m : t) :
  spawnFirmwareInterface serial_port m =
    (Return tt, set_firmware_view (Some {| visible := true |}) m, view_events m).
Proof.
  unfold spawnFirmwareInterface, view_events, bind, gets. simpl.
  destruct (_firmware_view m); reflexivity.
Qed.

Lemma batch_round (env : Env) (m : t) (port : string) :
  In port (dict_keys (_usb_output_devices m)) ->
  try_except (flash env port) is_FileNotFoundError
    (_ <- device_at port ;;
     tell (Device_setProgress port 100 100) ;;;
     tell (Log "w" "No firmware found for printer %s" [port])) m
  = (Return tt, m, served env port).
Proof.
  intros Hin. apply dict_get_In in Hin. destruct Hin as [device Hdev].
  unfold try_except, flash, device_at, bind, gets, served. simpl.
  rewrite Hdev. simpl. rewrite getDefaultFirmwareName_run.
  destruct (firmware_result env) as [name|e] eqn:Hres.
  - unfold getPath. destruct (Resources_getPath env port name) as [path|]; simpl.
    + reflexivity.
    + rewrite Hdev. simpl. now rewrite app_nil_r.
  - apply firmware_result_raises in Hres. subst e. simpl.
    rewrite Hdev. simpl. reflexivity.
Qed.

(** With at least one tracked device the batch returns normally, having
    shown the firmware view and served every tracked device in the order
    of the mapping. *)
Lemma updateAllFirmware_run (env : Env) (m : t) :
  _usb_output_devices m <> [] ->
  updateAllFirmware env m =
    (Return tt, set_firmware_view (Some {| visible := true |}) m,
     (view_events m ++ flat_map (served env) (dict_keys (_usb_output_devices m)))%list).
Proof.
  intros Hne. unfold updateAllFirmware, bind at 1. unfold gets at 1.
  destruct (_usb_output_devices m) as [|item rest] eqn:Hdev; [congruence|].
  cbn [dict_truthy negb]. unfold bind. rewrite spawnFirmwareInterface_run.
  rewrite (for_each_steady _ _ _ (served env)).
  - reflexivity.
  - intros port Hport. apply batch_round. simpl. now rewrite Hdev.
Qed.

(** C2, as stated, fails: with two printers and machine id "prusa_i3" the
    batch returns normally, shows no message, and marks each device on
    its own. *)
Lemma missing_base_entry_is_handled_per_device :
  active_machine_id unknown_machine = "prusa_i3"
  /\ dict_contains machine_without_extras "prusa_i3" = false
  /\ updateAllFirmware unknown_machine two_printers =
       (Return tt,
        set_firmware_view (Some {| visible := true |}) two_printers,
        [CreateFirmwareView; ShowFirmwareView;
         Log "e" "There is no firmware for machine %s." ["prusa_i3"];
         Log "e" "Could not find any firmware for machine %s." ["prusa_i3"];
         Device_setProgress "/dev/ttyUSB0" 100 100;
         Log "w" "No firmware found for printer %s" ["/dev/ttyUSB0"];
         Log "e" "There is no firmware for machine %s." ["prusa_i3"];
         Log "e" "Could not find any firmware for machine %s." ["prusa_i3"];
         Device_setProgress "/dev/ttyACM0" 100 100;
         Log "w" "No firmware found for printer %s" ["/dev/ttyACM0"]])
  /\ ~ missing_base_entry_is_batch_fatal unknown_machine two_printers.
Proof.
  repeat split.
  intros [_ [[text Hshown] _]].
  vm_compute in Hshown.
  repeat (destruct Hshown as [Hshown|Hshown]; [discriminate Hshown|]).
  exact Hshown.
Qed.

(** C2, amended: when the machine id has no base table entry and devices
    are tracked, [updateAllFirmware] returns normally with the firmware
    view shown; every round of the loop logs the failed resolution,
    calls [setProgress(100, 100)] on its device and logs a warning.  No
    device is flashed and no message is shown to the user. *)
Theorem updateAllFirmware_without_base_entry :
  forall (env : Env) (m : t),
    _usb_output_devices m <> [] ->
    ~ In (active_machine_id env) (dict_keys machine_without_extras) ->
    let machine_type := active_machine_id env in
    let round port :=
      [Log "e" "There is no firmware for machine %s." [machine_type];
       Log "e" "Could not find any firmware for machine %s." [machine_type];
       Device_setProgress port 100 100;
       Log "w" "No firmware found for printer %s" [port]] in
    let trace :=
      (view_events m ++ flat_map round (dict_keys (_usb_output_devices m)))%list in
    updateAllFirmware env m =
      (Return tt, set_firmware_view (Some {| visible := true |}) m, trace)
    /\ (forall port path, ~ In (Device_updateFirmware port path) trace)
    /\ (forall text, ~ In (ShowMessage text) trace)
    /\ (forall port, In port (dict_keys (_usb_output_devices m)) ->
                     In (Device_setProgress port 100 100) trace).
Proof.
  intros env m Hne Hbase machine_type round trace.
  apply dict_contains_false in Hbase.
  assert (Hround : forall port, served env port = round port).
  { intros port. unfold served, firmware_log, firmware_result,
      _getDefaultFirmwareName, bind.
    rewrite Hbase. reflexivity. }
  assert (Hview : forall e, In e (view_events m) ->
                            e = CreateFirmwareView \/ e = ShowFirmwareView).
  { intros e. unfold view_events. destruct (_firmware_view m); simpl; intuition. }
  split; [|split; [|split]].
  - rewrite updateAllFirmware_run by assumption.
    unfold trace. do 2 f_equal.
    apply flat_map_ext. exact Hround.
  - intros port path Hin. unfold trace in Hin. apply in_app_or in Hin.
    destruct Hin as [Hin|Hin].
    + apply Hview in Hin. destruct Hin; discriminate.
    + apply in_flat_map in Hin. destruct Hin as [q [_ Hin]].
      simpl in Hin. repeat (destruct Hin as [Hin|Hin]; [discriminate Hin|]).
      exact Hin.
  - intros text Hin. unfold trace in Hin. apply in_app_or in Hin.
    destruct Hin as [Hin|Hin].
    + apply Hview in Hin. destruct Hin; discriminate.
    + apply in_flat_map in Hin. destruct Hin as [q [_ Hin]].
      simpl in Hin. repeat (destruct Hin as [Hin|Hin]; [discriminate Hin|]).
      exact Hin.
  - intros port Hport. unfold trace. apply in_or_app. right.
    apply in_flat_map. exists port. split; [assumption|]. simpl. auto.
Qed.

Lemma updateAllFirmware_without_base_entry_witness :
  updateAllFirmware unknown_machine two_printers =
    (Return tt,
     set_firmware_view (Some {| visible := true |}) two_printers,
     [CreateFirmwareView; ShowFirmwareView;
      Log "e" "There is no firmware for machine %s." ["prusa_i3"];
      Log "e" "Could not find any firmware for machine %s." ["prusa_i3"];
      Device_setProgress "/dev/ttyUSB0" 100 100;
      Log "w" "No firmware found for printer %s" ["/dev/ttyUSB0"];
      Log "e" "There is no firmware for machine %s." ["prusa_i3"];
      Log "e" "Could not find any firmware for machine %s." ["prusa_i3"];
      Device_setProgress "/dev/ttyACM0" 100 100;
      Log "w" "No firmware found for printer %s" ["/dev/ttyACM0"]]).
Proof.
  apply (updateAllFirmware_without_base_entry unknown_machine two_printers).
  - discriminate.
  - simpl. intros H.
    repeat (destruct H as [H|H]; [discriminate H|]). exact H.
Defined.

(** C4: when resolution yields [name] but the image is absent while the
    device on [port] is served, the batch still returns normally having
    served every tracked device in order; the round of [port] consists of
    the resolution log, [setProgress(100, 100)] on that device and a
    warning, and every tracked device whose image is present is flashed
    with it. *)
Theorem updateAllFirmware_continues_after_missing_image :
  forall (env : Env) (m : t) (port name : string),
    In port (dict_keys (_usb_output_devices m)) ->
    firmware_result env = Return name ->
    Resources_getPath env port name = None ->
    updateAllFirmware env m =
      (Return tt, set_firmware_view (Some {| visible := true |}) m,
       (view_events m ++ flat_map (served env) (dict_keys (_usb_output_devices m)))%list)
    /\ served env port =
         (firmware_log env ++
          [Device_setProgress port 100 100;
           Log "w" "No firmware found for printer %s" [port]])%list
    /\ (forall other path,
           Resources_getPath env other name = Some path ->
           served env other = (firmware_log env ++ [Device_updateFirmware other path])%list)
    /\ (forall other,
           In other (dict_keys (_usb_output_devices m)) ->
           incl (served env other)
                (snd (updateAllFirmware env m))).
Proof.
  intros env m port name Hport Hres Habsent.
  assert (Hne : _usb_output_devices m <> []).
  { intros Hnil. rewrite Hnil in Hport. contradiction. }
  split; [|split; [|split]].
  - now apply updateAllFirmware_run.
  - unfold served. now rewrite Hres, Habsent.
  - intros other path Hpresent. unfold served. now rewrite Hres, Hpresent.
  - intros other Hother e He. rewrite updateAllFirmware_run by assumption.
    simpl. apply in_or_app. right. apply in_flat_map. now exists other.
Qed.

Lemma updateAllFirmware_continues_after_missing_image_witness :
  updateAllFirmware one_image_missing two_printers =
    (Return tt,
     set_firmware_view (Some {| visible := true |}) two_printers,
     [CreateFirmwareView; ShowFirmwareView;
      Log "d" "Choosing basic firmware for machine %s." ["ultimaker2"];
      Device_setProgress "/dev/ttyUSB0" 100 100;
      Log "w" "No firmware found for printer %s" ["/dev/ttyUSB0"];
      Log "d" "Choosing basic firmware for machine %s." ["ultimaker2"];
      Device_updateFirmware "/dev/ttyACM0" "/firmware/MarlinUltimaker2.hex"]).
Proof.
  apply (updateAllFirmware_continues_after_missing_image
           one_image_missing two_printers "/dev/ttyUSB0" "MarlinUltimaker2.hex").
  - simpl. auto.
  - reflexivity.
  - reflexivity.
Defined.

(** *** Connection-state reports and the registry *)

(** C3, as stated, fails: the same state reported twice reaches the
    registry twice. *)
Lemma repeated_report_publishes_twice :
  registry_calls
    (snd (reports [("/dev/ttyUSB0", connected); ("/dev/ttyUSB0", connected)] one_printer))
  = [Registry_addOutputDevice "/dev/ttyUSB0"; Registry_addOutputDevice "/dev/ttyUSB0"]
  /\ registry_calls
    (snd (reports [("/dev/ttyUSB0", error); ("/dev/ttyUSB0", error)] one_printer))
  = [Registry_removeOutputDevice "/dev/ttyUSB0"; Registry_removeOutputDevice "/dev/ttyUSB0"]
  /\ ~ published_once_per_connection one_printer.
Proof.
  split; [reflexivity | split; [reflexivity|]].
  intros Hclaim.
  specialize (Hclaim [("/dev/ttyUSB0", connected); ("/dev/ttyUSB0", connected)]).
  vm_compute in Hclaim. discriminate Hclaim.
Qed.

Lemma report_run (m : t) (port : string) (state : ConnectionState) :
  well_keyed m ->
  exists m' trace,
    report port state m = (Return tt, m', trace)
    /\ registry_calls trace = registry_call_for m (port, state)
    /\ dict_keys (_usb_output_devices m') = dict_keys (_usb_output_devices m)
    /\ well_keyed m'.
Proof.
  intros Hkeyed.
  unfold report, registry_call_for, dict_contains, bind at 1. unfold gets at 1.
  cbn [fst snd].
  destruct (dict_get (_usb_output_devices m) port) as [device|] eqn:Hdev.
  - pose proof (Hkeyed _ _ Hdev) as Hid.
    set (device' := PrinterOutputDevice.set_connection_state state device).
    set (m' := set_usb_output_devices
                 (dict_set (_usb_output_devices m) port device') m).
    assert (Hget : dict_get (_usb_output_devices m') port = Some device')
      by apply dict_get_set_same.
    exists m'.
    unfold PrinterOutputDevice.setConnectionState, bind, gets, modify, tell.
    cbn [PrinterOutputDevice._id PrinterOutputDevice.set_connection_state
         for_each app].
    fold device'. fold m'. rewrite Hid.
    unfold _onConnectionStateChanged, try_except, device_at, bind, gets, ret.
    rewrite Hget. cbn [PrinterOutputDevice._connection_state device'
                       PrinterOutputDevice.set_connection_state].
    exists [if ConnectionState_eqb state connected
            then Registry_addOutputDevice port
            else Registry_removeOutputDevice port;
            Emit_connectionStateChanged].
    split; [|split; [|split]].
    + destruct (ConnectionState_eqb state connected).
      * rewrite Hget. unfold tell. cbn. rewrite Hid. reflexivity.
      * unfold tell. cbn. reflexivity.
    + destruct (ConnectionState_eqb state connected); reflexivity.
    + unfold m'. cbn [_usb_output_devices set_usb_output_devices].
      rewrite dict_keys_set. unfold dict_contains. now rewrite Hdev.
    + intros q dq. unfold m'. cbn [_usb_output_devices set_usb_output_devices].
      destruct (String.eqb_spec q port) as [->|Hne].
      * rewrite dict_get_set_same. intros Heq. inversion Heq. subst dq. exact Hid.
      * rewrite dict_get_set_other by assumption. apply Hkeyed.
  - exists m, []. split; [|split; [|split]]; try reflexivity; try assumption.
    unfold _onConnectionStateChanged, try_except, device_at, bind, gets.
    rewrite Hdev. reflexivity.
Qed.

Lemma registry_calls_app (t1 t2 : list Event) :
  registry_calls (t1 ++ t2) = (registry_calls t1 ++ registry_calls t2)%list.
Proof. apply filter_app. Qed.

(** C3, amended: delivering any sequence of reports to a manager whose
    devices are keyed by their ids returns normally, and each report makes
    exactly one registry call when its port is tracked (a publish when the
    reported state is [connected], an unpublish otherwise) and none when
    it is not; a repeated report repeats its call. *)
Theorem each_report_makes_one_registry_call :
  forall (rs : list (string * ConnectionState)) (m : t),
    well_keyed m ->
    fst (fst (reports rs m)) = Return tt
    /\ registry_calls (snd (reports rs m)) = flat_map (registry_call_for m) rs.
Proof.
  unfold reports.
  induction rs as [|[port state] rs IH]; intros m Hkeyed.
  - split; reflexivity.
  - destruct (report_run m port state Hkeyed) as [m' [trace [Hrun [Hcalls [Hkeys Hkeyed']]]]].
    destruct (IH m' Hkeyed') as [Hret Hrest].
    cbn [for_each fst snd]. unfold bind. rewrite Hrun.
    destruct (for_each rs (fun r => report (fst r) (snd r)) m') as [[r m''] trace'].
    cbn [fst snd] in *. split; [assumption|].
    rewrite registry_calls_app, Hcalls, Hrest. cbn [flat_map]. f_equal.
    apply flat_map_ext. intros [q st]. unfold registry_call_for. cbn [fst snd].
    now rewrite (dict_contains_keys _ _ q Hkeys).
Qed.

Lemma each_report_makes_one_registry_call_witness :
  registry_calls
    (snd (reports [("/dev/ttyUSB0", connecting); ("/dev/ttyUSB0", connected);
                   ("/dev/ttyACM3", connected); ("/dev/ttyUSB0", connected);
                   ("/dev/ttyUSB0", closed)] one_printer))
  = [Registry_removeOutputDevice "/dev/ttyUSB0"; Registry_addOutputDevice "/dev/ttyUSB0";
     Registry_addOutputDevice "/dev/ttyUSB0"; Registry_removeOutputDevice "/dev/ttyUSB0"].
Proof.
  apply (each_report_makes_one_registry_call
           [("/dev/ttyUSB0", connecting); ("/dev/ttyUSB0", connected);
            ("/dev/ttyACM3", connected); ("/dev/ttyUSB0", connected);
            ("/dev/ttyUSB0", closed)] one_printer).
  intros port device. simpl.
  destruct (String.eqb port "/dev/ttyUSB0") eqn:Heq; [|discriminate].
  apply String.eqb_eq in Heq. intros Hsome. inversion Hsome. subst. reflexivity.
Defined.

(** *** Scan cycles *)

Lemma addRemovePorts_loops (emit : string -> M unit) (serial_ports : list string) :
  _addRemovePorts emit serial_ports =
    (announce_new emit serial_ports ;;; drop_missing serial_ports).
Proof. reflexivity. Qed.

Lemma missing_In (known ports : list string) (q : string) :
  In q (missing known ports) <-> In q ports /\ ~ In q known.
Proof.
  unfold missing. rewrite filter_In, negb_true_iff, str_in_false. tauto.
Qed.

Lemma collect_missing_run (devices : dict PrinterOutputDevice.t) :
  forall (acc : list string) (m : t),
    collect_missing devices acc m =
      (Return (acc ++ missing (_serial_port_list m) (dict_keys devices))%list, m,
       map Device_close (missing (_serial_port_list m) (dict_keys devices))).
Proof.
  unfold collect_missing.
  induction devices as [|[port device] devices IH]; intros acc m; simpl.
  - unfold ret. now rewrite app_nil_r.
  - unfold bind at 1. unfold bind at 1. unfold gets at 1. cbn [fst].
    destruct (str_in port (_serial_port_list m)) eqn:Hknown; cbn [negb].
    + unfold ret at 1. rewrite IH. reflexivity.
    + unfold bind at 1. unfold tell at 1. unfold ret at 1. rewrite IH.
      cbn [app map]. now rewrite <- app_assoc.
Qed.

Lemma delete_all_run (devices_to_remove : list string) :
  forall (m : t),
    NoDup (dict_keys (_usb_output_devices m)) ->
    NoDup devices_to_remove ->
    incl devices_to_remove (dict_keys (_usb_output_devices m)) ->
    exists m',
      delete_all devices_to_remove m = (Return tt, m', [])
      /\ _serial_port_list m' = _serial_port_list m
      /\ NoDup (dict_keys (_usb_output_devices m'))
      /\ (forall q, In q (dict_keys (_usb_output_devices m'))
                    <-> In q (dict_keys (_usb_output_devices m))
                        /\ ~ In q devices_to_remove).
Proof.
  unfold delete_all.
  induction devices_to_remove as [|port rest IH]; intros m Hnd Hnd_rm Hincl.
  - exists m. simpl. repeat split; try assumption; tauto.
  - inversion Hnd_rm as [|? ? Hnotin Hnd_rest]; subst.
    assert (Hport : dict_contains (_usb_output_devices m) port = true).
    { apply dict_contains_In. apply Hincl. now left. }
    set (m1 := set_usb_output_devices (dict_del (_usb_output_devices m) port) m).
    assert (Hkeys1 : forall q, In q (dict_keys (_usb_output_devices m1))
                               <-> In q (dict_keys (_usb_output_devices m)) /\ q <> port).
    { intros q. unfold m1. cbn [_usb_output_devices set_usb_output_devices].
      rewrite dict_keys_del by assumption. rewrite filter_In, negb_true_iff.
      destruct (String.eqb_spec port q); intuition congruence. }
    assert (Hnd1 : NoDup (dict_keys (_usb_output_devices m1))).
    { unfold m1. cbn [_usb_output_devices set_usb_output_devices].
      rewrite dict_keys_del by assumption. now apply NoDup_filter. }
    destruct (IH m1 Hnd1 Hnd_rest) as [m' [Hrun [Hlist [Hnd' Hkeys']]]].
    { intros q Hq. apply Hkeys1. split.
      - apply Hincl. now right.
      - intros ->. contradiction. }
    exists m'. split; [|split; [|split]].
    + cbn [for_each]. unfold bind at 1. unfold bind at 1. unfold gets at 1.
      rewrite Hport. unfold modify at 1. fold m1. rewrite Hrun. reflexivity.
    + exact Hlist.
    + exact Hnd'.
    + intros q. rewrite Hkeys', Hkeys1. simpl. intuition congruence.
Qed.

Lemma drop_missing_run (serial_ports : list string) (m : t) :
  NoDup (dict_keys (_usb_output_devices m)) ->
  exists m',
    drop_missing serial_ports m =
      (Return tt, m',
       map Device_close (missing serial_ports (dict_keys (_usb_output_devices m))))
    /\ _serial_port_list m' = serial_ports
    /\ NoDup (dict_keys (_usb_output_devices m'))
    /\ (forall q, In q (dict_keys (_usb_output_devices m'))
                  <-> In q (dict_keys (_usb_output_devices m)) /\ In q serial_ports).
Proof.
  intros Hnd.
  set (m1 := set_serial_port_list serial_ports m).
  destruct (delete_all_run
              (missing serial_ports (dict_keys (_usb_output_devices m))) m1)
    as [m' [Hrun [Hlist [Hnd' Hkeys']]]].
  - exact Hnd.
  - now apply NoDup_filter.
  - intros q Hq. apply missing_In in Hq. tauto.
  - exists m'. split; [|split; [|split]].
    + unfold drop_missing, bind at 1. unfold modify at 1. fold m1.
      unfold bind at 1. unfold gets at 1. unfold bind at 1.
      rewrite collect_missing_run.
      cbn [_serial_port_list _usb_output_devices m1 set_serial_port_list app].
      fold m1. rewrite Hrun. now rewrite !app_nil_r.
    + exact Hlist.
    + exact Hnd'.
    + intros q. rewrite Hkeys'. cbn [_usb_output_devices m1 set_serial_port_list].
      rewrite missing_In.
      destruct (str_in q serial_ports) eqn:Hq.
      * apply str_in_In in Hq. tauto.
      * apply str_in_false in Hq. tauto.
Qed.

Lemma addOutputDevice_run (serial_port : string) (m : t) :
  addOutputDevice serial_port m =
    (Return tt,
     set_usb_output_devices
       (dict_set (_usb_output_devices m) serial_port
                 (PrinterOutputDevice.__init__ serial_port)) m,
     [Device_connect serial_port]).
Proof. reflexivity. Qed.

(** Handing a list of ports to [addOutputDevice], one after the other. *)
Lemma add_all_run (ports : list string) :
  forall (m : t),
    NoDup (dict_keys (_usb_output_devices m)) ->
    exists m',
      for_each ports addOutputDevice m = (Return tt, m', map Device_connect ports)
      /\ _serial_port_list m' = _serial_port_list m
      /\ NoDup (dict_keys (_usb_output_devices m'))
      /\ (forall q, In q (dict_keys (_usb_output_devices m'))
                    <-> In q (dict_keys (_usb_output_devices m)) \/ In q ports).
Proof.
  induction ports as [|port rest IH]; intros m Hnd.
  - exists m. simpl. repeat split; try assumption; tauto.
  - set (m1 := set_usb_output_devices
                 (dict_set (_usb_output_devices m) port
                           (PrinterOutputDevice.__init__ port)) m).
    destruct (IH m1) as [m' [Hrun [Hlist [Hnd' Hkeys']]]].
    { unfold m1. cbn [_usb_output_devices set_usb_output_devices].
      now apply dict_keys_set_NoDup. }
    exists m'. split; [|split; [|split]].
    + cbn [for_each]. unfold bind. rewrite addOutputDevice_run. fold m1.
      rewrite Hrun. reflexivity.
    + exact Hlist.
    + exact Hnd'.
    + intros q. rewrite Hkeys'. unfold m1.
      cbn [_usb_output_devices set_usb_output_devices].
      rewrite dict_keys_set_In. simpl. intuition congruence.
Qed.

Lemma announce_direct_run (serial_ports : list string) :
  forall (m : t),
    NoDup (dict_keys (_usb_output_devices m)) ->
    exists m' trace,
      announce_new addOutputDevice serial_ports m = (Return tt, m', trace)
      /\ _serial_port_list m' = _serial_port_list m
      /\ NoDup (dict_keys (_usb_output_devices m'))
      /\ (forall q, In q (dict_keys (_usb_output_devices m'))
                    <-> In q (dict_keys (_usb_output_devices m))
                        \/ (In q serial_ports /\ ~ In q (_serial_port_list m))).
Proof.
  unfold announce_new.
  induction serial_ports as [|port rest IH]; intros m Hnd.
  - exists m, []. simpl. repeat split; try assumption; tauto.
  - destruct (str_in port (_serial_port_list m)) eqn:Hknown.
    + destruct (IH m Hnd) as [m' [trace [Hrun [Hlist [Hnd' Hkeys']]]]].
      exists m', trace. split; [|split; [|split]]; try assumption.
      * cbn [for_each]. unfold bind at 1. unfold bind at 1. unfold gets at 1.
        rewrite Hknown. cbn [negb when]. unfold ret at 1. rewrite Hrun. reflexivity.
      * intros q. rewrite Hkeys'. apply str_in_In in Hknown. simpl.
        intuition congruence.
    + set (m1 := set_usb_output_devices
                   (dict_set (_usb_output_devices m) port
                             (PrinterOutputDevice.__init__ port)) m).
      destruct (IH m1) as [m' [trace [Hrun [Hlist [Hnd' Hkeys']]]]].
      { unfold m1. cbn [_usb_output_devices set_usb_output_devices].
        now apply dict_keys_set_NoDup. }
      exists m', ([Device_connect port] ++ trace)%list.
      split; [|split; [|split]]; try assumption.
      * cbn [for_each]. unfold bind at 1. unfold bind at 1. unfold gets at 1.
        rewrite Hknown. cbn [negb when]. rewrite addOutputDevice_run. fold m1.
        rewrite Hrun. reflexivity.
      * intros q. rewrite Hkeys'. unfold m1.
        cbn [_usb_output_devices _serial_port_list set_usb_output_devices].
        rewrite dict_keys_set_In. apply str_in_false in Hknown. simpl.
        intuition congruence.
Qed.

Lemma announce_queued_run (serial_ports : list string) (m : t) :
  announce_new (fun p => tell (Emit_addUSBOutputDeviceSignal p)) serial_ports m =
    (Return tt, m,
     map Emit_addUSBOutputDeviceSignal (missing (_serial_port_list m) serial_ports)).
Proof.
  unfold announce_new.
  induction serial_ports as [|port rest IH]; simpl.
  - reflexivity.
  - unfold bind at 1. unfold bind at 1. unfold gets at 1.
    destruct (str_in port (_serial_port_list m)); cbn [negb when].
    + unfold ret at 1. rewrite IH. reflexivity.
    + unfold tell at 1. rewrite IH. reflexivity.
Qed.

Lemma announced_emits (ports : list string) :
  announced (map Emit_addUSBOutputDeviceSignal ports) = ports.
Proof. induction ports; simpl; congruence. Qed.

Lemma announced_closes (ports : list string) :
  announced (map Device_close ports) = [].
Proof. induction ports; simpl; congruence. Qed.

Lemma announced_app (t1 t2 : list Event) :
  announced (t1 ++ t2) = (announced t1 ++ announced t2)%list.
Proof. apply flat_map_app. Qed.

(** One cycle, either way the signal is delivered, re-establishes the
    invariant with the scanned ports as the known ones. *)
Lemma scan_cycle_direct_run (serial_ports : list string) (m : t) :
  tracks_known_ports m ->
  exists m' trace,
    scan_cycle_direct serial_ports m = (Return tt, m', trace)
    /\ _serial_port_list m' = serial_ports
    /\ tracks_known_ports m'.
Proof.
  intros [Hnd Hkeys].
  destruct (announce_direct_run serial_ports m Hnd)
    as [m1 [t1 [Hrun1 [Hlist1 [Hnd1 Hkeys1]]]]].
  destruct (drop_missing_run serial_ports m1 Hnd1) as [m2 [Hrun2 [Hlist2 [Hnd2 Hkeys2]]]].
  exists m2. eexists. split; [|split; [|split]].
  - unfold scan_cycle_direct. rewrite addRemovePorts_loops.
    unfold bind. rewrite Hrun1, Hrun2. reflexivity.
  - exact Hlist2.
  - exact Hnd2.
  - intros q. rewrite Hlist2, Hkeys2, Hkeys1, Hkeys.
    destruct (str_in q (_serial_port_list m)) eqn:Hq.
    + apply str_in_In in Hq. tauto.
    + apply str_in_false in Hq. tauto.
Qed.

Lemma scan_cycle_queued_run (serial_ports : list string) (m : t) :
  tracks_known_ports m ->
  exists m' trace,
    scan_cycle_queued serial_ports m = (Return tt, m', trace)
    /\ _serial_port_list m' = serial_ports
    /\ tracks_known_ports m'.
Proof.
  intros [Hnd Hkeys].
  destruct (drop_missing_run serial_ports m Hnd) as [m1 [Hrun1 [Hlist1 [Hnd1 Hkeys1]]]].
  destruct (add_all_run (missing (_serial_port_list m) serial_ports) m1 Hnd1)
    as [m2 [Hrun2 [Hlist2 [Hnd2 Hkeys2]]]].
  exists m2. eexists. split; [|split; [|split]].
  - unfold scan_cycle_queued. rewrite addRemovePorts_loops.
    unfold bind. rewrite announce_queued_run, Hrun1.
    rewrite announced_app, announced_emits, announced_closes, app_nil_r.
    rewrite Hrun2. reflexivity.
  - congruence.
  - exact Hnd2.
  - intros q. rewrite Hlist2, Hlist1, Hkeys2, Hkeys1, Hkeys, missing_In.
    destruct (str_in q (_serial_port_list m)) eqn:Hq.
    + apply str_in_In in Hq. tauto.
    + apply str_in_false in Hq. tauto.
Qed.

Lemma init_tracks_known_ports : tracks_known_ports __init__.
Proof. split; [constructor | simpl; tauto]. Qed.

Lemma cycles_consistent (cycle : list string -> M unit) :
  (forall serial_ports m,
      tracks_known_ports m ->
      exists m' trace,
        cycle serial_ports m = (Return tt, m', trace)
        /\ _serial_port_list m' = serial_ports
        /\ tracks_known_ports m') ->
  forall (scans : list (list string)) (last : list string) (m : t),
    tracks_known_ports m ->
    exists m' trace,
      for_each (scans ++ [last]) cycle m = (Return tt, m', trace)
      /\ _serial_port_list m' = last
      /\ tracks_known_ports m'.
Proof.
  intros Hcycle. induction scans as [|scan scans IH]; intros last m Hinv.
  - destruct (Hcycle last m Hinv) as [m' [trace [Hrun [Hlist Hinv']]]].
    exists m', (trace ++ [])%list. split; [|split]; try assumption.
    cbn [app for_each]. unfold bind. rewrite Hrun. reflexivity.
  - destruct (Hcycle scan m Hinv) as [m1 [t1 [Hrun1 [_ Hinv1]]]].
    destruct (IH last m1 Hinv1) as [m' [trace [Hrun [Hlist Hinv']]]].
    exists m', (t1 ++ trace)%list. split; [|split]; try assumption.
    rewrite <- app_comm_cons. cbn [for_each]. unfold bind at 1.
    rewrite Hrun1, Hrun. reflexivity.
Qed.

(** C5: starting from a fresh manager, after every scan cycle of any
    sequence of scans the keys of the device mapping are pairwise distinct
    and are exactly the ports of the scan just handled, which is also the
    stored port list; this holds whether [addUSBOutputDeviceSignal] calls
    [addOutputDevice] at once or hands the ports over when
    [_addRemovePorts] has returned. *)
Theorem tracked_ports_are_the_last_scan :
  forall (scans : list (list string)) (last : list string),
    consistent_after scan_cycle_direct scans last
    /\ consistent_after scan_cycle_queued scans last.
Proof.
  intros scans last. split.
  - destruct (cycles_consistent scan_cycle_direct scan_cycle_direct_run
                scans last __init__ init_tracks_known_ports)
      as [m [trace [Hrun [Hlist [Hnd Hkeys]]]]].
    exists m, trace. repeat split; try assumption.
    + now rewrite Hkeys, Hlist.
    + now rewrite Hkeys, Hlist.
    + intros q Hq. now apply Hkeys.
  - destruct (cycles_consistent scan_cycle_queued scan_cycle_queued_run
                scans last __init__ init_tracks_known_ports)
      as [m [trace [Hrun [Hlist [Hnd Hkeys]]]]].
    exists m, trace. repeat split; try assumption.
    + now rewrite Hkeys, Hlist.
    + now rewrite Hkeys, Hlist.
    + intros q Hq. now apply Hkeys.
Qed.

End ManagerFacts.

(* ================================================================== *)
(** ** Further properties of the printer output device *)

Module PrinterOutputDeviceLaws.

Import Py PrinterOutputDevice PrinterOutputDeviceFacts.

Lemma list_update_nth_error_other {A} (l : list A) (i j : nat) (v : A) :
  j <> i -> nth_error (list_update l i v) j = nth_error l j.
Proof.
  revert i j; induction l as [|x l IH]; intros [|i] [|j] Hne; simpl; auto;
    try congruence.
Qed.

Lemma list_setitem_low {A} (l : list A) (index : Z) (v : A) :
  index < - Z.of_nat (List.length l) -> list_setitem l index v = Raise IndexError.
Proof.
  intros Hi. unfold list_setitem.
  replace (0 <=? index) with false by (symmetry; apply Z.leb_gt; lia).
  replace (- Z.of_nat (List.length l) <=? index) with false
    by (symmetry; apply Z.leb_gt; lia).
  reflexivity.
Qed.

Lemma list_setitem_in_range {A} (l : list A) (index : Z) (v : A) :
  0 <= index < Z.of_nat (List.length l) ->
  list_setitem l index v = Return (list_update l (Z.to_nat index) v).
Proof.
  intros [Hlo Hhi]. unfold list_setitem.
  replace (0 <=? index) with true by (symmetry; apply Z.leb_le; lia).
  replace (index <? Z.of_nat (List.length l)) with true
    by (symmetry; apply Z.ltb_lt; lia).
  reflexivity.
Qed.

Lemma list_setitem_length {A} (l l' : list A) (index : Z) (v : A) :
  list_setitem l index v = Return l' -> List.length l' = List.length l.
Proof.
  unfold list_setitem. intros Hset.
  destruct ((0 <=? index) && (index <? Z.of_nat (List.length l)));
    [|destruct ((- Z.of_nat (List.length l) <=? index) && (index <? 0))];
    inversion Hset; apply list_update_length.
Qed.




(** X3: [setTargetBedTemperature] runs the hook first.  When the hook
    returns, the target is stored and [targetBedTemperatureChanged] is
    emitted whether or not the value is new; when the hook raises, the
    exception is passed on and nothing is stored or emitted. *)
Theorem setTargetBedTemperature_after_hook :
  forall (H : Hooks) (d d1 : t) (t1 : list Event) (r : Outcome unit) (temperature : Z),
    _setTargetBedTemperature temperature d = (r, d1, t1) ->
    setTargetBedTemperature temperature d =
      match r with
      | Return _ =>
          (Return tt, set_target_bed_temperature temperature d1,
           (t1 ++ [Emit targetBedTemperatureChanged])%list)
      | Raise e => (Raise e, d1, t1)
      end.
Proof.
  intros H d d1 t1 r temperature Hhook.
  unfold setTargetBedTemperature, bind. rewrite Hhook.
  destruct r as [[]|e]; reflexivity.
Qed.

Lemma setTargetBedTemperature_after_hook_witness :
  setTargetBedTemperature (H := Base) 60
    (set_target_bed_temperature 60 (__init__ "/dev/ttyUSB0"))
  = (Return tt, set_target_bed_temperature 60 (__init__ "/dev/ttyUSB0"),
     [Log "w" "_setTargetBedTemperature is not implemented by this output device";
      Emit targetBedTemperatureChanged]).
Proof.
  apply (setTargetBedTemperature_after_hook Base
           (set_target_bed_temperature 60 (__init__ "/dev/ttyUSB0"))
           (set_target_bed_temperature 60 (__init__ "/dev/ttyUSB0"))
           [Log "w" "_setTargetBedTemperature is not implemented by this output device"]
           (Return tt) 60).
  reflexivity.
Defined.

(** X4: with an index from 0 up to the number of stored targets and a hook
    that returns, [setTargetHotendTemperature] overwrites that entry and no
    other, keeps the number of entries and the measured temperatures, and
    emits [targetHotendTemperaturesChanged] once after what the hook did. *)
Theorem setTargetHotendTemperature_in_range :
  forall (H : Hooks) (d d1 : t) (t1 : list Event) (index temperature : Z),
    _setTargetHotendTemperature index temperature d = (Return tt, d1, t1) ->
    0 <= index < Z.of_nat (List.length (_target_hotend_temperatures d1)) ->
    exists d2,
      setTargetHotendTemperature index temperature d =
        (Return tt, d2, (t1 ++ [Emit targetHotendTemperaturesChanged])%list)
      /\ nth_error (_target_hotend_temperatures d2) (Z.to_nat index) = Some temperature
      /\ (forall j, j <> Z.to_nat index ->
                    nth_error (_target_hotend_temperatures d2) j =
                      nth_error (_target_hotend_temperatures d1) j)
      /\ List.length (_target_hotend_temperatures d2) =
           List.length (_target_hotend_temperatures d1)
      /\ _hotend_temperatures d2 = _hotend_temperatures d1.
Proof.
  intros H d d1 t1 index temperature Hhook Hrange.
  eexists. split; [|split; [|split; [|split]]].
  - unfold setTargetHotendTemperature, bind. rewrite Hhook.
    unfold gets, lift. rewrite list_setitem_in_range by assumption.
    unfold modify, tell. simpl. reflexivity.
  - simpl. apply list_update_nth_error. lia.
  - intros j Hj. simpl. now apply list_update_nth_error_other.
  - simpl. apply list_update_length.
  - reflexivity.
Qed.

Lemma setTargetHotendTemperature_in_range_witness :
  exists d2,
    setTargetHotendTemperature (H := Base) 0 210 (__init__ "/dev/ttyUSB0") =
      (Return tt, d2,
       [Log "w" "_setTargetHotendTemperature is not implemented by this output device";
        Emit targetHotendTemperaturesChanged])
    /\ nth_error (_target_hotend_temperatures d2) 0 = Some 210.
Proof.
  destruct (setTargetHotendTemperature_in_range Base
              (__init__ "/dev/ttyUSB0") (__init__ "/dev/ttyUSB0")
              [Log "w" "_setTargetHotendTemperature is not implemented by this output device"]
              0 210) as [d2 [Hrun [Hnth _]]].
  - reflexivity.
  - simpl. lia.
  - exists d2. split; [exact Hrun | exact Hnth].
Defined.

(** X5: [_setHotendTemperature] with an index inside the list, counted from
    either end, stores the temperature there, keeps the length and the
    targets and emits [hotendTemperaturesChanged]; with an index outside
    it raises [IndexError], the device is unchanged and nothing is
    emitted. *)
Theorem setHotendTemperature_by_index :
  forall (d : t) (index temperature : Z),
    let n := Z.of_nat (List.length (_hotend_temperatures d)) in
    (- n <= index < n ->
       exists temps,
         _setHotendTemperature index temperature d =
           (Return tt, set_hotend_temperatures temps d, [Emit hotendTemperaturesChanged])
         /\ nth_error temps (Z.to_nat (if index <? 0 then n + index else index))
            = Some temperature
         /\ List.length temps = List.length (_hotend_temperatures d))
    /\ (index < - n \/ n <= index ->
        _setHotendTemperature index temperature d = (Raise IndexError, d, [])).
Proof.
  intros d index temperature n. split.
  - intros Hrange. unfold _setHotendTemperature, bind, gets, lift.
    destruct (Z.ltb_spec index 0) as [Hneg|Hpos].
    + rewrite list_setitem_negative by (fold n; lia).
      eexists. split; [reflexivity|]. split.
      * apply list_update_nth_error. fold n. lia.
      * apply list_update_length.
    + rewrite list_setitem_in_range by (fold n; lia).
      eexists. split; [reflexivity|]. split.
      * apply list_update_nth_error. fold n in Hrange. lia.
      * apply list_update_length.
  - intros [Hlow|Hhigh]; unfold _setHotendTemperature, bind, gets, lift.
    + rewrite list_setitem_low by (fold n; lia). reflexivity.
    + rewrite list_setitem_high by (fold n; lia). reflexivity.
Qed.

Lemma setHotendTemperature_by_index_witness :
  (exists temps,
      _setHotendTemperature (-1) 195 (__init__ "/dev/ttyUSB0") =
        (Return tt, set_hotend_temperatures temps (__init__ "/dev/ttyUSB0"),
         [Emit hotendTemperaturesChanged])
      /\ nth_error temps 0 = Some 195)
  /\ _setHotendTemperature (-2) 195 (__init__ "/dev/ttyUSB0") =
       (Raise IndexError, __init__ "/dev/ttyUSB0", []).
Proof.
  destruct (setHotendTemperature_by_index (__init__ "/dev/ttyUSB0") (-1) 195)
    as [Hin _].
  destruct (setHotendTemperature_by_index (__init__ "/dev/ttyUSB0") (-2) 195)
    as [_ Hout].
  split.
  - destruct Hin as [temps [Hrun [Hnth _]]]; [simpl; lia|].
    exists temps. split; [exact Hrun | exact Hnth].
  - apply Hout. simpl. lia.
Defined.

Lemma call_keeps_shape (c : Call) (d : t) :
  arrays_sized d ->
  arrays_sized (snd (fst (call (H := Base) c d)))
  /\ _id (snd (fst (call (H := Base) c d))) = _id d
  /\ _num_extruders (snd (fst (call (H := Base) c d))) = _num_extruders d.
Proof.
  intros [Hcur Htgt]. unfold arrays_sized.
  destruct c; try (simpl; auto; fail).
  - (* setTargetHotendTemperature *)
    cbn [call]. unfold setTargetHotendTemperature, bind, gets, lift. simpl.
    destruct (list_setitem (_target_hotend_temperatures d) index temperature)
      as [targets|e] eqn:Hset; simpl; auto.
    apply list_setitem_length in Hset. rewrite Hset. auto.
  - (* _setHotendTemperature *)
    cbn [call]. unfold _setHotendTemperature, bind, gets, lift. simpl.
    destruct (list_setitem (_hotend_temperatures d) index temperature)
      as [temps|e] eqn:Hset; simpl; auto.
    apply list_setitem_length in Hset. rewrite Hset. auto.
  - (* _updateHeadPosition *)
    cbn [call]. unfold _updateHeadPosition, bind, gets. simpl.
    destruct (_head_x d =? x); simpl; destruct (_head_y d =? y); simpl;
      destruct (_head_z d =? z); simpl; auto.
  - (* setProgress *)
    cbn [call]. unfold setProgress, bind, gets. simpl.
    destruct (_progress d =? _); simpl; auto.
Qed.

(** X6: whatever methods are called on a base-class device, in whatever
    order and whether or not some of them raise, the device keeps its id
    and its extruder count, and both hotend lists keep one entry per
    extruder. *)
Theorem calls_keep_shape :
  forall (cs : list Call) (d : t),
    arrays_sized d ->
    arrays_sized (fst (calls (H := Base) cs d))
    /\ _id (fst (calls (H := Base) cs d)) = _id d
    /\ _num_extruders (fst (calls (H := Base) cs d)) = _num_extruders d.
Proof.
  induction cs as [|c cs IH]; intros d Hd.
  - simpl. auto.
  - destruct (call_keeps_shape c d Hd) as [Hd1 [Hid1 Hn1]].
    cbn [calls].
    destruct (call (H := Base) c d) as [[r d1] t1]. cbn [fst snd] in *.
    destruct (IH d1 Hd1) as [Hd2 [Hid2 Hn2]].
    destruct (calls (H := Base) cs d1) as [d2 t2]. cbn [fst snd] in *.
    repeat split; try apply Hd2; congruence.
Qed.

Lemma calls_keep_shape_witness :
  arrays_sized
    (fst (calls (H := Base)
            [Call_setTargetHotendTemperature 3 210; Call_close;
             Call_setHotendTemperature 0 25; Call_setConnectionState connected;
             Call_setHeadZ 10 3000; Call_setProgress 40]
            (__init__ "/dev/ttyUSB0")))
  /\ _id
       (fst (calls (H := Base)
               [Call_setTargetHotendTemperature 3 210; Call_close;
                Call_setHotendTemperature 0 25; Call_setConnectionState connected;
                Call_setHeadZ 10 3000; Call_setProgress 40]
               (__init__ "/dev/ttyUSB0"))) = "/dev/ttyUSB0".
Proof.
  destruct (calls_keep_shape
              [Call_setTargetHotendTemperature 3 210; Call_close;
               Call_setHotendTemperature 0 25; Call_setConnectionState connected;
               Call_setHeadZ 10 3000; Call_setProgress 40]
              (__init__ "/dev/ttyUSB0")) as [Hshape [Hid _]].
  - split; reflexivity.
  - split; [exact Hshape | exact Hid].
Defined.

Lemma motion_call_run (c : Call) (d : t) :
  is_motion c = true ->
  call (H := Base) c d =
    (Return tt, d, [Log "w" (motion_hook c ++ " is not implemented by this output device")]).
Proof.
  destruct c; intros Hc; try discriminate Hc; reflexivity.
Qed.

(** X7: on the base class the homing and head-positioning calls are
    accepted and ignored: any sequence of them leaves the device exactly
    as it was, emits no signal, and logs one warning per call naming the
    hook that is not implemented. *)
Theorem motion_calls_only_warn :
  forall (cs : list Call) (d : t),
    forallb is_motion cs = true ->
    calls (H := Base) cs d =
      (d, map (fun c => Log "w" (motion_hook c ++ " is not implemented by this output device"))
              cs).
Proof.
  induction cs as [|c cs IH]; intros d Hmotion.
  - reflexivity.
  - cbn [forallb] in Hmotion. apply andb_prop in Hmotion.
    destruct Hmotion as [Hc Hcs].
    cbn [calls map]. rewrite (motion_call_run c d Hc), (IH d Hcs). reflexivity.
Qed.

Lemma motion_calls_only_warn_witness :
  calls (H := Base) [Call_homeHead; Call_moveHead 1 2 3 3000; Call_setHeadZ 10 3000]
        (__init__ "/dev/ttyUSB0")
  = (__init__ "/dev/ttyUSB0",
     [Log "w" "_homeHead is not implemented by this output device";
      Log "w" "_moveHead is not implemented by this output device";
      Log "w" "_setHeadY is not implemented by this output device"]).
Proof.
  apply (motion_calls_only_warn
           [Call_homeHead; Call_moveHead 1 2 3 3000; Call_setHeadZ 10 3000]
           (__init__ "/dev/ttyUSB0")).
  reflexivity.
Defined.

End PrinterOutputDeviceLaws.

(* ================================================================== *)
(** ** Further properties of the USB printer manager *)

Module ManagerLaws.

Import Py PyFacts USBPrinterOutputDeviceManager ManagerDefs ManagerFacts.

(** *** Firmware *)

(** X8: [updateAllFirmware] never raises and never touches the device
    mapping or the port list.  With no tracked device it only shows the
    "no connected printers" message: no view, no resolution, manager
    unchanged.  Otherwise it shows no message, leaves the firmware view
    visible and serves every tracked device once, in mapping order. *)
Theorem updateAllFirmware_returns :
  forall (env : Env) (m : t),
    exists m' trace,
      updateAllFirmware env m = (Return tt, m', trace)
      /\ _usb_output_devices m' = _usb_output_devices m
      /\ _serial_port_list m' = _serial_port_list m
      /\ if dict_truthy (_usb_output_devices m)
         then _firmware_view m' = Some {| visible := true |}
              /\ trace = (view_events m
                          ++ flat_map (served env) (dict_keys (_usb_output_devices m)))%list
         else m' = m
              /\ trace = [ShowMessage
                            "Cannot update firmware, there were no connected printers found."].
Proof.
  intros env m.
  destruct (_usb_output_devices m) as [|item rest] eqn:Hdev.
  - exists m. eexists. unfold updateAllFirmware, bind, gets. rewrite Hdev. simpl.
    repeat split; assumption.
  - assert (Hne : _usb_output_devices m <> []) by (rewrite Hdev; discriminate).
    rewrite (updateAllFirmware_run env m Hne).
    do 2 eexists. split; [reflexivity|]. rewrite Hdev. simpl. auto.
Qed.

Lemma flash_run (env : Env) (m : t) (port : string) :
  In port (dict_keys (_usb_output_devices m)) ->
  flash env port m =
    match firmware_result env with
    | Return name =>
        match Resources_getPath env port name with
        | Some path =>
            (Return tt, m, (firmware_log env ++ [Device_updateFirmware port path])%list)
        | None => (Raise FileNotFoundError, m, firmware_log env)
        end
    | Raise _ => (Raise FileNotFoundError, m, firmware_log env)
    end.
Proof.
  intros Hin. apply dict_get_In in Hin. destruct Hin as [device Hdev].
  unfold flash, device_at, bind, gets. simpl. rewrite Hdev. simpl.
  rewrite getDefaultFirmwareName_run.
  destruct (firmware_result env) as [name|e] eqn:Hres.
  - unfold getPath. destruct (Resources_getPath env port name) as [path|]; simpl.
    + reflexivity.
    + now rewrite app_nil_r.
  - apply firmware_result_raises in Hres. subst e. reflexivity.
Qed.

(** X9: [updateFirmwareBySerial] never raises and never touches the device
    mapping or the port list.  It returns [True] exactly when
    [updateFirmware] was called on the device of that port; for a tracked
    port the firmware view ends visible on success and closed on failure,
    and, unlike the batch, a failure does not call [setProgress] on the
    device. *)
Theorem updateFirmwareBySerial_returns :
  forall (env : Env) (m : t) (serial_port : string),
    exists result m' trace,
      updateFirmwareBySerial env serial_port m = (Return result, m', trace)
      /\ _usb_output_devices m' = _usb_output_devices m
      /\ _serial_port_list m' = _serial_port_list m
      /\ (result = true <-> exists path, In (Device_updateFirmware serial_port path) trace)
      /\ _firmware_view m' =
           (if dict_contains (_usb_output_devices m) serial_port
            then Some {| visible := result |}
            else _firmware_view m)
      /\ (forall port progress max_progress,
             ~ In (Device_setProgress port progress max_progress) trace).
Proof.
  intros env m serial_port.
  assert (Hview : forall e, In e (view_events m) ->
                            e = CreateFirmwareView \/ e = ShowFirmwareView).
  { intros e. unfold view_events. destruct (_firmware_view m); simpl; intuition. }
  assert (Hlog : forall e, In e (firmware_log env) -> exists l s a, e = Log l s a).
  { intros e. unfold firmware_log, _getDefaultFirmwareName, bind, dict_getitem.
    destruct (dict_contains machine_without_extras (active_machine_id env)).
    - destruct (dict_contains machine_with_heated_bed (active_machine_id env)
                && machine_heated_bed env); unfold tell.
      + destruct (dict_get machine_with_heated_bed (active_machine_id env)) as [[|c hex]|];
          simpl; intros He; repeat (destruct He as [He|He]; eauto); contradiction.
      + destruct (dict_get machine_without_extras (active_machine_id env)) as [[|c hex]|];
          simpl; intros He; repeat (destruct He as [He|He]; eauto); contradiction.
    - simpl. intros He; repeat (destruct He as [He|He]; eauto); contradiction. }
  destruct (dict_contains (_usb_output_devices m) serial_port) eqn:Htracked.
  - pose proof Htracked as Hin. apply dict_contains_In in Hin.
    pose proof Hin as Hget. apply dict_get_In in Hget. destruct Hget as [device Hdev].
    set (m1 := set_firmware_view (Some {| visible := true |}) m).
    assert (Hin1 : In serial_port (dict_keys (_usb_output_devices m1))) by exact Hin.
    assert (Hrun : updateFirmwareBySerial env serial_port m =
                   match flash env serial_port m1 with
                   | (Return _, m2, t2) =>
                       (Return true, m2,
                        (Device_getSerialPort serial_port :: view_events m ++ t2)%list)
                   | (Raise _, m2, t2) =>
                       (Return false, set_firmware_view (Some {| visible := false |}) m2,
                        (Device_getSerialPort serial_port :: view_events m ++ t2
                         ++ [CloseFirmwareView;
                             Log "e" "Could not find firmware required for this machine" []])%list)
                   end).
    { unfold updateFirmwareBySerial, bind at 1. unfold gets at 1. rewrite Htracked.
      unfold bind at 1. unfold device_at, bind at 1. unfold gets at 1. rewrite Hdev.
      unfold ret at 1. unfold bind at 1. unfold tell at 1. unfold bind at 1.
      rewrite spawnFirmwareInterface_run. fold m1.
      unfold try_except, bind at 1. rewrite (flash_run env m1 serial_port Hin1).
      destruct (firmware_result env) as [name|e].
      - destruct (Resources_getPath env serial_port name) as [path|]; simpl.
        + rewrite app_nil_r. reflexivity.
        + reflexivity.
      - simpl. reflexivity. }
    rewrite Hrun. rewrite (flash_run env m1 serial_port Hin1).
    destruct (firmware_result env) as [name|e].
    + destruct (Resources_getPath env serial_port name) as [path|].
      * do 3 eexists. split; [reflexivity|].
        split; [reflexivity|]. split; [reflexivity|]. split; [|split; [reflexivity|]].
        -- split; [intros _|reflexivity]. exists path. right.
           apply in_or_app. right. apply in_or_app. right. now left.
        -- intros port progress max_progress [Hd|Hd]; [discriminate|].
           apply in_app_or in Hd. destruct Hd as [Hd|Hd].
           ++ apply Hview in Hd. destruct Hd; discriminate.
           ++ apply in_app_or in Hd. destruct Hd as [Hd|[Hd|[]]]; [|discriminate].
              apply Hlog in Hd. destruct Hd as [l [s [a Hd]]]. discriminate.
      * do 3 eexists. split; [reflexivity|].
        split; [reflexivity|]. split; [reflexivity|]. split; [|split; [reflexivity|]].
        -- split; [discriminate|]. intros [path [Hd|Hd]]; [discriminate|]. exfalso.
           apply in_app_or in Hd. destruct Hd as [Hd|Hd].
           ++ apply Hview in Hd. destruct Hd; discriminate.
           ++ apply in_app_or in Hd. destruct Hd as [Hd|[Hd|[Hd|[]]]]; try discriminate.
              apply Hlog in Hd. destruct Hd as [l [s [a Hd]]]. discriminate.
        -- intros port progress max_progress [Hd|Hd]; [discriminate|].
           apply in_app_or in Hd. destruct Hd as [Hd|Hd].
           ++ apply Hview in Hd. destruct Hd; discriminate.
           ++ apply in_app_or in Hd. destruct Hd as [Hd|[Hd|[Hd|[]]]]; try discriminate.
              apply Hlog in Hd. destruct Hd as [l [s [a Hd]]]. discriminate.
    + do 3 eexists. split; [reflexivity|].
      split; [reflexivity|]. split; [reflexivity|]. split; [|split; [reflexivity|]].
      * split; [discriminate|]. intros [path [Hd|Hd]]; [discriminate|]. exfalso.
        apply in_app_or in Hd. destruct Hd as [Hd|Hd].
        -- apply Hview in Hd. destruct Hd; discriminate.
        -- apply in_app_or in Hd. destruct Hd as [Hd|[Hd|[Hd|[]]]]; try discriminate.
           apply Hlog in Hd. destruct Hd as [l [s [a Hd]]]. discriminate.
      * intros port progress max_progress [Hd|Hd]; [discriminate|].
        apply in_app_or in Hd. destruct Hd as [Hd|Hd].
        -- apply Hview in Hd. destruct Hd; discriminate.
        -- apply in_app_or in Hd. destruct Hd as [Hd|[Hd|[Hd|[]]]]; try discriminate.
           apply Hlog in Hd. destruct Hd as [l [s [a Hd]]]. discriminate.
  - exists false, m, []. unfold updateFirmwareBySerial, bind, gets. simpl.
    rewrite Htracked. repeat split; try reflexivity; try discriminate.
    + intros [path []].
    + intros port progress max_progress [].
Qed.

(** X10: however often [spawnFirmwareInterface] is called, the firmware
    view is created at most once, and only when there was none; every call
    shows it. *)
Theorem spawnFirmwareInterface_creates_once :
  forall (serial_port : string) (more : list string) (m : t),
    for_each (serial_port :: more) spawnFirmwareInterface m =
      (Return tt, set_firmware_view (Some {| visible := true |}) m,
       (view_events m ++ repeat ShowFirmwareView (List.length more))%list).
Proof.
  intros serial_port more m.
  assert (Hrest : forall l m1,
             _firmware_view m1 = Some {| visible := true |} ->
             for_each l spawnFirmwareInterface m1 =
               (Return tt, m1, repeat ShowFirmwareView (List.length l))).
  { induction l as [|a l IH]; intros m1 Hshown; [reflexivity|].
    cbn [for_each]. unfold bind. rewrite spawnFirmwareInterface_run.
    replace (set_firmware_view (Some {| visible := true |}) m1) with m1
      by (destruct m1; simpl in Hshown; subst; reflexivity).
    rewrite (IH m1 Hshown). unfold view_events. rewrite Hshown. reflexivity. }
  cbn [for_each]. unfold bind. rewrite spawnFirmwareInterface_run.
  rewrite Hrest by reflexivity. reflexivity.
Qed.

Lemma base_entry_not_empty (machine_type hex : string) :
  dict_get machine_without_extras machine_type = Some hex -> hex <> "".
Proof.
  unfold machine_without_extras. simpl.
  repeat match goal with
         | |- context [String.eqb machine_type ?k] => destruct (String.eqb machine_type k)
         end;
    intros Heq; inversion Heq; discriminate.
Qed.

Lemma heated_bed_entry (machine_type : string) :
  dict_contains machine_with_heated_bed machine_type =
    String.eqb machine_type "ultimaker_original".
Proof.
  unfold dict_contains, machine_with_heated_bed. simpl.
  now destruct (String.eqb machine_type "ultimaker_original").
Qed.

(** X11: firmware resolution returns a file name exactly for the machine
    ids of the base table and raises [FileNotFoundError] for every other
    id; it raises nothing else and leaves the manager alone. *)
Theorem firmware_resolves_listed_machines :
  forall (env : Env) (m : t),
    exists log,
      if dict_contains machine_without_extras (active_machine_id env)
      then exists name, _getDefaultFirmwareName env m = (Return name, m, log)
      else _getDefaultFirmwareName env m = (Raise FileNotFoundError, m, log).
Proof.
  intros env m. exists (firmware_log env). rewrite getDefaultFirmwareName_run.
  destruct (dict_contains machine_without_extras (active_machine_id env)) eqn:Hbase.
  - destruct (firmware_result env) as [name|e] eqn:Hres; [now exists name|].
    exfalso. revert Hres.
    unfold firmware_result, _getDefaultFirmwareName, bind, dict_getitem.
    rewrite Hbase, heated_bed_entry.
    destruct (String.eqb_spec (active_machine_id env) "ultimaker_original") as [Hid|Hid].
    + rewrite Hid. destruct (machine_heated_bed env); simpl; discriminate.
    + cbn [andb]. apply dict_contains_get in Hbase. destruct Hbase as [hex Hhex].
      unfold tell. rewrite Hhex. pose proof (base_entry_not_empty _ _ Hhex) as Hne.
      destruct hex; [congruence|]. simpl. discriminate.
  - unfold firmware_result, _getDefaultFirmwareName, bind. rewrite Hbase. reflexivity.
Qed.

(** X12: the heated-bed setting matters for "ultimaker_original" only: for
    any other machine id, two environments that agree on the id and the
    platform resolve to the same outcome with the same log. *)
Theorem heated_bed_only_matters_for_ultimaker_original :
  forall (env env' : Env),
    active_machine_id env = active_machine_id env' ->
    platform_system env = platform_system env' ->
    active_machine_id env <> "ultimaker_original" ->
    firmware_result env = firmware_result env'
    /\ firmware_log env = firmware_log env'.
Proof.
  intros env env' Hid Hsys Hother.
  unfold firmware_result, firmware_log, _getDefaultFirmwareName, bind.
  rewrite !heated_bed_entry, <- Hid, <- Hsys.
  apply String.eqb_neq in Hother. rewrite Hother. cbn [andb]. auto.
Qed.

Lemma heated_bed_only_matters_for_ultimaker_original_witness :
  firmware_result
    {| platform_system := "Darwin"; active_machine_id := "ultimaker_original_plus";
       machine_heated_bed := true; Resources_getPath := fun _ _ => None |}
  = firmware_result
      {| platform_system := "Darwin"; active_machine_id := "ultimaker_original_plus";
         machine_heated_bed := false; Resources_getPath := fun _ name => Some name |}.
Proof.
  apply (heated_bed_only_matters_for_ultimaker_original
           {| platform_system := "Darwin"; active_machine_id := "ultimaker_original_plus";
              machine_heated_bed := true; Resources_getPath := fun _ _ => None |}
           {| platform_system := "Darwin"; active_machine_id := "ultimaker_original_plus";
              machine_heated_bed := false; Resources_getPath := fun _ name => Some name |}).
  - reflexivity.
  - reflexivity.
  - discriminate.
Defined.




(** *** Connection-state notifications *)

Lemma onConnectionStateChanged_run (m : t) (serial_port : string) :
  _onConnectionStateChanged serial_port m =
    (Return tt, m,
     match dict_get (_usb_output_devices m) serial_port with
     | Some device =>
         [if ConnectionState_eqb (PrinterOutputDevice._connection_state device) connected
          then Registry_addOutputDevice (PrinterOutputDevice._id device)
          else Registry_removeOutputDevice serial_port;
          Emit_connectionStateChanged]
     | None => []
     end).
Proof.
  unfold _onConnectionStateChanged, try_except, device_at, bind, gets.
  destruct (dict_get (_usb_output_devices m) serial_port) as [device|] eqn:Hdev.
  - cbn. destruct (ConnectionState_eqb (PrinterOutputDevice._connection_state device)
                                       connected).
    + rewrite Hdev. reflexivity.
    + reflexivity.
  - reflexivity.
Qed.

(** X14: [_onConnectionStateChanged] never raises and never changes the
    manager.  For a port that is not tracked it does nothing at all; for a
    tracked one it makes one registry call - a publish when the device is
    connected, an unpublish otherwise - and then emits the manager's
    [connectionStateChanged]. *)
Theorem onConnectionStateChanged_returns :
  forall (m : t) (serial_port : string),
    _onConnectionStateChanged serial_port m =
      (Return tt, m,
       match dict_get (_usb_output_devices m) serial_port with
       | Some device =>
           [if ConnectionState_eqb (PrinterOutputDevice._connection_state device) connected
            then Registry_addOutputDevice (PrinterOutputDevice._id device)
            else Registry_removeOutputDevice serial_port;
            Emit_connectionStateChanged]
       | None => []
       end).
Proof.
  intros m serial_port. apply onConnectionStateChanged_run.
Qed.

(** *** The device mapping *)


(** *** Scan cycles, in detail *)

Lemma dict_get_absent {V} (d : dict V) (k : string) :
  ~ In k (dict_keys d) -> dict_get d k = None.
Proof.
  intros Hnotin. apply dict_contains_false in Hnotin. unfold dict_contains in Hnotin.
  destruct (dict_get d k); [discriminate | reflexivity].
Qed.

Lemma dict_get_del {V} (d : dict V) (k q : string) :
  NoDup (dict_keys d) ->
  dict_get (dict_del d k) q = if String.eqb q k then None else dict_get d q.
Proof.
  induction d as [|[k' v'] d IH]; simpl; intros Hnd.
  - now destruct (String.eqb q k).
  - apply NoDup_cons_iff in Hnd. destruct Hnd as [Hnotin Hnd'].
    destruct (String.eqb_spec k k') as [Hkk'|Hkk'].
    + destruct (String.eqb_spec q k') as [Hqk'|Hqk'].
      * rewrite Hkk', Hqk', String.eqb_refl. now apply dict_get_absent.
      * rewrite Hkk'. destruct (String.eqb_spec q k'); [contradiction | reflexivity].
    + simpl. destruct (String.eqb_spec q k') as [Hqk'|Hqk'].
      * destruct (String.eqb_spec q k); [congruence | reflexivity].
      * now apply IH.
Qed.

Lemma missing_none (known ports : list string) :
  incl ports known -> missing known ports = [].
Proof.
  intros Hincl. unfold missing.
  induction ports as [|port ports IH]; simpl; [reflexivity|].
  assert (Hin : str_in port known = true) by (apply str_in_In, Hincl; now left).
  rewrite Hin. simpl. apply IH. intros q Hq. apply Hincl. now right.
Qed.

Lemma delete_all_mapping (devices_to_remove : list string) :
  forall (m m' : t) (trace : list Event),
    NoDup (dict_keys (_usb_output_devices m)) ->
    NoDup devices_to_remove ->
    incl devices_to_remove (dict_keys (_usb_output_devices m)) ->
    delete_all devices_to_remove m = (Return tt, m', trace) ->
    _check_updates m' = _check_updates m
    /\ _firmware_view m' = _firmware_view m
    /\ forall q, dict_get (_usb_output_devices m') q =
                   if str_in q devices_to_remove then None
                   else dict_get (_usb_output_devices m) q.
Proof.
  unfold delete_all.
  induction devices_to_remove as [|port rest IH]; intros m m' trace Hnd Hnd_rm Hincl Hrun.
  - inversion Hrun. subst. auto.
  - inversion Hnd_rm as [|? ? Hnotin Hnd_rest]; subst.
    assert (Hport : dict_contains (_usb_output_devices m) port = true).
    { apply dict_contains_In. apply Hincl. now left. }
    set (m1 := set_usb_output_devices (dict_del (_usb_output_devices m) port) m).
    assert (Hnd1 : NoDup (dict_keys (_usb_output_devices m1))).
    { unfold m1. cbn [_usb_output_devices set_usb_output_devices].
      rewrite dict_keys_del by assumption. now apply NoDup_filter. }
    assert (Hincl1 : incl rest (dict_keys (_usb_output_devices m1))).
    { intros q Hq. unfold m1. cbn [_usb_output_devices set_usb_output_devices].
      rewrite dict_keys_del by assumption. apply filter_In. split.
      - apply Hincl. now right.
      - apply negb_true_iff. apply String.eqb_neq. intros ->. contradiction. }
    cbn [for_each] in Hrun. unfold bind at 1 in Hrun. unfold bind at 1 in Hrun.
    unfold gets at 1 in Hrun. rewrite Hport in Hrun. unfold modify at 1 in Hrun.
    fold m1 in Hrun.
    destruct (for_each rest
                (fun port0 : string =>
                   devices <- gets _usb_output_devices;;
                   (if dict_contains devices port0
                    then modify (set_usb_output_devices (dict_del devices port0))
                    else raise KeyError)) m1) as [[r m2] t2] eqn:Hrest.
    inversion Hrun. subst r m2 trace.
    destruct (IH m1 m' t2 Hnd1 Hnd_rest Hincl1 Hrest) as [Hcheck [Hview Hget]].
    split; [exact Hcheck|]. split; [exact Hview|].
    intros q. rewrite Hget. unfold m1. cbn [_usb_output_devices set_usb_output_devices].
    rewrite dict_get_del by assumption.
    unfold str_in. cbn [existsb].
    destruct (String.eqb q port); cbn [orb]; now destruct (existsb (String.eqb q) rest).
Qed.

Lemma drop_missing_mapping (serial_ports : list string) (m m' : t) (trace : list Event) :
  NoDup (dict_keys (_usb_output_devices m)) ->
  drop_missing serial_ports m = (Return tt, m', trace) ->
  _check_updates m' = _check_updates m
  /\ _firmware_view m' = _firmware_view m
  /\ forall q, dict_get (_usb_output_devices m') q =
                 if str_in q serial_ports then dict_get (_usb_output_devices m) q
                 else None.
Proof.
  intros Hnd Hrun.
  set (m1 := set_serial_port_list serial_ports m).
  unfold drop_missing, bind at 1 in Hrun. unfold modify at 1 in Hrun. fold m1 in Hrun.
  unfold bind at 1 in Hrun. unfold gets at 1 in Hrun. unfold bind at 1 in Hrun.
  rewrite collect_missing_run in Hrun.
  cbn [_serial_port_list _usb_output_devices m1 set_serial_port_list app] in Hrun.
  fold m1 in Hrun.
  destruct (delete_all (missing serial_ports (dict_keys (_usb_output_devices m))) m1)
    as [[r m2] t2] eqn:Hdel.
  inversion Hrun. subst r m2 trace.
  destruct (delete_all_mapping
              (missing serial_ports (dict_keys (_usb_output_devices m))) m1 m' t2)
    as [Hcheck [Hview Hget]]; try assumption.
  - now apply NoDup_filter.
  - intros q Hq. apply missing_In in Hq. tauto.
  - split; [exact Hcheck|]. split; [exact Hview|].
    intros q. rewrite Hget. cbn [_usb_output_devices m1 set_serial_port_list].
    destruct (str_in q (missing serial_ports (dict_keys (_usb_output_devices m)))) eqn:Hq.
    + apply str_in_In, missing_In in Hq. destruct Hq as [_ Hq].
      apply str_in_false in Hq. now rewrite Hq.
    + destruct (str_in q serial_ports) eqn:HqS; [reflexivity|].
      apply str_in_false in Hq. apply str_in_false in HqS.
      apply dict_get_absent. intros Hin. apply Hq. apply missing_In. tauto.
Qed.

Lemma add_all_mapping (ports : list string) :
  forall (m m' : t) (trace : list Event),
    for_each ports addOutputDevice m = (Return tt, m', trace) ->
    _check_updates m' = _check_updates m
    /\ _firmware_view m' = _firmware_view m
    /\ forall q, dict_get (_usb_output_devices m') q =
                   if str_in q ports then Some (PrinterOutputDevice.__init__ q)
                   else dict_get (_usb_output_devices m) q.
Proof.
  induction ports as [|port rest IH]; intros m m' trace Hrun.
  - inversion Hrun. subst. auto.
  - cbn [for_each] in Hrun. unfold bind in Hrun. rewrite addOutputDevice_run in Hrun.
    set (m1 := set_usb_output_devices
                 (dict_set (_usb_output_devices m) port
                           (PrinterOutputDevice.__init__ port)) m) in Hrun.
    destruct (for_each rest addOutputDevice m1) as [[r m2] t2] eqn:Hrest.
    inversion Hrun. subst r m2 trace.
    destruct (IH m1 m' t2 Hrest) as [Hcheck [Hview Hget]].
    split; [exact Hcheck|]. split; [exact Hview|].
    intros q. rewrite Hget. unfold m1. cbn [_usb_output_devices set_usb_output_devices].
    unfold str_in. cbn [existsb].
    destruct (String.eqb_spec q port) as [->|Hne]; cbn [orb].
    + rewrite dict_get_set_same. now destruct (existsb (String.eqb port) rest).
    + now rewrite dict_get_set_other by assumption.
Qed.

Lemma scan_cycle_queued_trace (serial_ports : list string) (m : t) :
  tracks_known_ports m ->
  exists m',
    scan_cycle_queued serial_ports m =
      (Return tt, m',
       (map Emit_addUSBOutputDeviceSignal (missing (_serial_port_list m) serial_ports)
        ++ map Device_close (missing serial_ports (dict_keys (_usb_output_devices m)))
        ++ map Device_connect (missing (_serial_port_list m) serial_ports))%list)
    /\ _serial_port_list m' = serial_ports
    /\ tracks_known_ports m'
    /\ _check_updates m' = _check_updates m
    /\ _firmware_view m' = _firmware_view m
    /\ forall q, dict_get (_usb_output_devices m') q =
                   if str_in q serial_ports then
                     match dict_get (_usb_output_devices m) q with
                     | Some device => Some device
                     | None => Some (PrinterOutputDevice.__init__ q)
                     end
                   else None.
Proof.
  intros Hinv. pose proof Hinv as [Hnd Hkeys].
  destruct (drop_missing_run serial_ports m Hnd) as [m1 [Hrun1 [Hlist1 [Hnd1 Hkeys1]]]].
  destruct (add_all_run (missing (_serial_port_list m) serial_ports) m1 Hnd1)
    as [m2 [Hrun2 [Hlist2 [Hnd2 Hkeys2]]]].
  destruct (drop_missing_mapping _ _ _ _ Hnd Hrun1) as [Hcheck1 [Hview1 Hget1]].
  destruct (add_all_mapping _ _ _ _ Hrun2) as [Hcheck2 [Hview2 Hget2]].
  exists m2. split; [|split; [|split; [|split; [|split]]]].
  - unfold scan_cycle_queued. rewrite addRemovePorts_loops.
    unfold bind. rewrite announce_queued_run, Hrun1.
    rewrite announced_app, announced_emits, announced_closes, app_nil_r.
    rewrite Hrun2. now rewrite <- app_assoc.
  - congruence.
  - split; [exact Hnd2|]. intros q.
    rewrite Hlist2, Hlist1, Hkeys2, Hkeys1, Hkeys, missing_In.
    destruct (str_in q (_serial_port_list m)) eqn:Hq.
    + apply str_in_In in Hq. tauto.
    + apply str_in_false in Hq. tauto.
  - congruence.
  - congruence.
  - intros q. rewrite Hget2, Hget1.
    destruct (str_in q (missing (_serial_port_list m) serial_ports)) eqn:Hnew.
    + apply str_in_In, missing_In in Hnew. destruct Hnew as [HqS HqL].
      apply str_in_In in HqS. rewrite HqS.
      rewrite dict_get_absent; [reflexivity|]. now rewrite Hkeys.
    + destruct (str_in q serial_ports) eqn:HqS; [|reflexivity].
      apply str_in_false in Hnew. apply str_in_In in HqS.
      assert (Hin : In q (dict_keys (_usb_output_devices m))).
      { apply Hkeys. destruct (str_in q (_serial_port_list m)) eqn:HqL.
        - now apply str_in_In.
        - apply str_in_false in HqL. exfalso. apply Hnew. apply missing_In. tauto. }
      apply dict_get_In in Hin. destruct Hin as [device Hdev]. now rewrite Hdev.
Qed.





Lemma announce_known (emit : string -> M unit) (serial_ports : list string) (m : t) :
  incl serial_ports (_serial_port_list m) ->
  announce_new emit serial_ports m = (Return tt, m, []).
Proof.
  unfold announce_new. induction serial_ports as [|port rest IH]; intros Hincl.
  - reflexivity.
  - assert (Hknown : str_in port (_serial_port_list m) = true)
      by (apply str_in_In, Hincl; now left).
    cbn [for_each]. unfold bind at 1. unfold bind at 1. unfold gets at 1.
    rewrite Hknown. cbn [negb when]. unfold ret at 1.
    rewrite IH; [reflexivity|]. intros q Hq. apply Hincl. now right.
Qed.

Lemma drop_missing_nothing (m : t) :
  incl (dict_keys (_usb_output_devices m)) (_serial_port_list m) ->
  drop_missing (_serial_port_list m) m = (Return tt, m, []).
Proof.
  intros Hincl.
  unfold drop_missing, bind at 1. unfold modify at 1.
  replace (set_serial_port_list (_serial_port_list m) m) with m by (now destruct m).
  unfold bind at 1. unfold gets at 1. unfold bind at 1.
  rewrite collect_missing_run. rewrite (missing_none _ _ Hincl). reflexivity.
Qed.

(** X18: a scan that reports the ports already known changes nothing and
    causes nothing: no device is built, connected or closed, whether the
    signal is delivered at once or afterwards. *)
Theorem repeated_scan_changes_nothing :
  forall (m : t),
    tracks_known_ports m ->
    scan_cycle_queued (_serial_port_list m) m = (Return tt, m, [])
    /\ scan_cycle_direct (_serial_port_list m) m = (Return tt, m, []).
Proof.
  intros m [Hnd Hkeys].
  assert (Hincl : incl (dict_keys (_usb_output_devices m)) (_serial_port_list m)).
  { intros q Hq. now apply Hkeys. }
  split.
  - unfold scan_cycle_queued. rewrite addRemovePorts_loops. unfold bind.
    rewrite announce_known by apply incl_refl.
    rewrite (drop_missing_nothing m Hincl). reflexivity.
  - unfold scan_cycle_direct. rewrite addRemovePorts_loops. unfold bind.
    rewrite announce_known by apply incl_refl.
    rewrite (drop_missing_nothing m Hincl). reflexivity.
Qed.

Lemma repeated_scan_changes_nothing_witness :
  scan_cycle_queued ["/dev/ttyUSB0"; "/dev/ttyACM0"] two_printers
  = (Return tt, two_printers, []).
Proof.
  apply (repeated_scan_changes_nothing two_printers).
  split.
  - simpl. repeat constructor; simpl; intuition discriminate.
  - intros port. simpl. tauto.
Defined.

(** *** Reports *)

Lemma report_exact (m : t) (port : string) (state : ConnectionState) :
  well_keyed m ->
  report port state m =
    match dict_get (_usb_output_devices m) port with
    | Some device =>
        (Return tt,
         set_usb_output_devices
           (dict_set (_usb_output_devices m) port
                     (PrinterOutputDevice.set_connection_state state device)) m,
         [if ConnectionState_eqb state connected
          then Registry_addOutputDevice port
          else Registry_removeOutputDevice port;
          Emit_connectionStateChanged])
    | None => (Return tt, m, [])
    end.
Proof.
  intros Hkeyed.
  unfold report, bind at 1. unfold gets at 1.
  destruct (dict_get (_usb_output_devices m) port) as [device|] eqn:Hdev.
  - pose proof (Hkeyed _ _ Hdev) as Hid.
    unfold PrinterOutputDevice.setConnectionState, bind, gets, modify, tell.
    cbn [PrinterOutputDevice._id PrinterOutputDevice.set_connection_state for_each app].
    rewrite Hid. unfold bind. rewrite onConnectionStateChanged_run.
    cbn [_usb_output_devices set_usb_output_devices]. rewrite dict_get_set_same.
    cbn [PrinterOutputDevice._connection_state PrinterOutputDevice._id
         PrinterOutputDevice.set_connection_state].
    rewrite Hid. unfold ret. now destruct (ConnectionState_eqb state connected).
  - rewrite onConnectionStateChanged_run, Hdev. cbn. reflexivity.
Qed.

Lemma report_keeps_invariants (m : t) (port : string) (state : ConnectionState) :
  well_keyed m ->
  tracks_known_ports m ->
  exists m' trace,
    report port state m = (Return tt, m', trace)
    /\ well_keyed m' /\ tracks_known_ports m'.
Proof.
  intros Hkeyed Htracks. rewrite (report_exact m port state Hkeyed).
  destruct (dict_get (_usb_output_devices m) port) as [device|] eqn:Hdev.
  - do 2 eexists. split; [reflexivity|]. split.
    + intros q dq. cbn [_usb_output_devices set_usb_output_devices].
      destruct (String.eqb_spec q port) as [Heq|Hne].
      * rewrite Heq, dict_get_set_same. intros Hsome. inversion Hsome.
        cbn. now apply Hkeyed.
      * rewrite dict_get_set_other by assumption. apply Hkeyed.
    + unfold tracks_known_ports.
      cbn [_usb_output_devices _serial_port_list set_usb_output_devices].
      rewrite dict_keys_set. unfold dict_contains. rewrite Hdev. exact Htracks.
  - exists m, []. auto.
Qed.

Lemma scan_keeps_invariants (serial_ports : list string) (m : t) :
  well_keyed m ->
  tracks_known_ports m ->
  exists m' trace,
    scan_cycle_queued serial_ports m = (Return tt, m', trace)
    /\ well_keyed m' /\ tracks_known_ports m'.
Proof.
  intros Hkeyed Htracks.
  destruct (scan_cycle_queued_trace serial_ports m Htracks)
    as [m' [Hrun [_ [Htracks' [_ [_ Hget]]]]]].
  do 2 eexists. split; [exact Hrun|]. split; [|exact Htracks'].
  intros q dq. rewrite Hget.
  destruct (str_in q serial_ports); [|discriminate].
  destruct (dict_get (_usb_output_devices m) q) as [device|] eqn:Hdev.
  - intros Hsome. inversion Hsome. subst dq. now apply Hkeyed.
  - intros Hsome. inversion Hsome. reflexivity.
Qed.

(** X19: from a fresh manager, any sequence of scan cycles and
    connection-state reports runs through without raising, and after it
    every tracked device still carries its port as its id, the tracked
    ports are pairwise distinct, and they are the ports of the stored port
    list. *)
Theorem manager_invariants_hold :
  forall (actions : list Action),
    exists m trace,
      for_each actions act __init__ = (Return tt, m, trace)
      /\ well_keyed m
      /\ tracks_known_ports m.
Proof.
  assert (Hgen : forall actions m,
             well_keyed m -> tracks_known_ports m ->
             exists m' trace,
               for_each actions act m = (Return tt, m', trace)
               /\ well_keyed m' /\ tracks_known_ports m').
  { induction actions as [|a actions IH]; intros m Hkeyed Htracks.
    - exists m, []. auto.
    - assert (Hstep : exists m1 t1, act a m = (Return tt, m1, t1)
                                    /\ well_keyed m1 /\ tracks_known_ports m1).
      { destruct a as [serial_ports|port state]; cbn [act].
        - now apply scan_keeps_invariants.
        - now apply report_keeps_invariants. }
      destruct Hstep as [m1 [t1 [Hrun1 [Hkeyed1 Htracks1]]]].
      destruct (IH m1 Hkeyed1 Htracks1) as [m' [trace [Hrun [Hkeyed' Htracks']]]].
      exists m', (t1 ++ trace)%list. split; [|auto].
      cbn [for_each]. unfold bind. rewrite Hrun1, Hrun. reflexivity. }
  intros actions. apply Hgen.
  - intros port device Hdev. discriminate Hdev.
  - apply init_tracks_known_ports.
Qed.

(** *** The list of connected printers *)

Lemma ConnectionState_eqb_eq (a b : ConnectionState) :
  ConnectionState_eqb a b = true <-> a = b.
Proof. destruct a, b; cbv; split; congruence. Qed.

Lemma connectedPrinterList_run (m : t) :
  connectedPrinterList m =
    (Return (flat_map (listed (_usb_output_devices m)) (dict_keys (_usb_output_devices m))),
     m, []).
Proof.
  unfold connectedPrinterList, bind at 1. unfold gets at 1.
  assert (Hfold : forall ks acc,
             incl ks (dict_keys (_usb_output_devices m)) ->
             for_fold ks acc
               (fun model connection =>
                  device <- device_at connection ;;
                  if ConnectionState_eqb (PrinterOutputDevice._connection_state device)
                                         connected
                  then device <- device_at connection ;;
                       ret (model ++ [(connection, device)])%list
                  else ret model) m
             = (Return (acc ++ flat_map (listed (_usb_output_devices m)) ks)%list, m, [])).
  { induction ks as [|k ks IH]; intros acc Hincl.
    - cbn. now rewrite app_nil_r.
    - assert (Hk : In k (dict_keys (_usb_output_devices m))) by (apply Hincl; now left).
      apply dict_get_In in Hk. destruct Hk as [device Hdev].
      assert (Hks : incl ks (dict_keys (_usb_output_devices m)))
        by (intros q Hq; apply Hincl; now right).
      cbn [for_fold flat_map]. unfold bind at 1. unfold device_at at 1.
      unfold bind at 1. unfold gets at 1. unfold bind at 1. unfold listed at 1.
      rewrite Hdev. unfold ret at 1.
      destruct (ConnectionState_eqb (PrinterOutputDevice._connection_state device)
                                    connected).
      + unfold device_at, bind at 1. unfold gets at 1. unfold bind at 1.
        rewrite Hdev. unfold ret at 1. unfold ret at 1. rewrite (IH _ Hks).
        cbn [app]. now rewrite <- app_assoc.
      + unfold ret at 1. rewrite (IH _ Hks). reflexivity. }
  rewrite Hfold by apply incl_refl. reflexivity.
Qed.

Lemma listed_In (devices : dict PrinterOutputDevice.t) (port : string)
      (device : PrinterOutputDevice.t) :
  In (port, device) (flat_map (listed devices) (dict_keys devices))
  <-> dict_get devices port = Some device
      /\ PrinterOutputDevice._connection_state device = connected.
Proof.
  rewrite in_flat_map. split.
  - intros [k [_ Hin]]. unfold listed in Hin.
    destruct (dict_get devices k) as [dk|] eqn:Hdev; [|contradiction].
    destruct (ConnectionState_eqb (PrinterOutputDevice._connection_state dk) connected)
      eqn:Hstate; [|contradiction].
    destruct Hin as [Heq|[]]. inversion Heq. subst.
    split; [assumption|]. now apply ConnectionState_eqb_eq.
  - intros [Hdev Hstate]. exists port. split.
    + apply dict_contains_In. unfold dict_contains. now rewrite Hdev.
    + unfold listed. rewrite Hdev.
      apply ConnectionState_eqb_eq in Hstate. rewrite Hstate. now left.
Qed.


(** X21: after a tracked device has reported a state, it is among the
    connected printers exactly when that state is [connected], and whether
    any other port is listed has not changed. *)
Theorem report_decides_listing :
  forall (m : t) (port : string) (state : ConnectionState) (device : PrinterOutputDevice.t),
    well_keyed m ->
    dict_get (_usb_output_devices m) port = Some device ->
    exists m' trace items before,
      report port state m = (Return tt, m', trace)
      /\ connectedPrinterList m' = (Return items, m', [])
      /\ connectedPrinterList m = (Return before, m, [])
      /\ (In port (map fst items) <-> state = connected)
      /\ (forall other, other <> port ->
                        (In other (map fst items) <-> In other (map fst before))).
Proof.
  intros m port state device Hkeyed Hdev.
  rewrite (report_exact m port state Hkeyed), Hdev.
  do 4 eexists. split; [reflexivity|].
  split; [apply connectedPrinterList_run|]. split; [apply connectedPrinterList_run|].
  cbn [_usb_output_devices set_usb_output_devices].
  set (device' := PrinterOutputDevice.set_connection_state state device).
  split.
  - rewrite in_map_iff. split.
    + intros [[p d] [Hp Hin]]. cbn [fst] in Hp. subst p.
      apply listed_In in Hin. destruct Hin as [Hget Hstate].
      rewrite dict_get_set_same in Hget. inversion Hget. subst d. exact Hstate.
    + intros Hstate. exists (port, device'). split; [reflexivity|].
      apply listed_In. split; [apply dict_get_set_same|]. exact Hstate.
  - intros other Hother. rewrite !in_map_iff. split.
    + intros [[p d] [Hp Hin]]. cbn [fst] in Hp. subst p.
      apply listed_In in Hin. rewrite dict_get_set_other in Hin by assumption.
      exists (other, d). split; [reflexivity|]. now apply listed_In.
    + intros [[p d] [Hp Hin]]. cbn [fst] in Hp. subst p.
      apply listed_In in Hin.
      exists (other, d). split; [reflexivity|]. apply listed_In.
      now rewrite dict_get_set_other by assumption.
Qed.

Lemma report_decides_listing_witness :
  exists m' trace items before,
    report "/dev/ttyUSB0" connected two_printers = (Return tt, m', trace)
    /\ connectedPrinterList m' = (Return items, m', [])
    /\ connectedPrinterList two_printers = (Return before, two_printers, [])
    /\ (In "/dev/ttyUSB0" (map fst items) <-> connected = connected).
Proof.
  destruct (report_decides_listing two_printers "/dev/ttyUSB0" connected
              (PrinterOutputDevice.__init__ "/dev/ttyUSB0"))
    as [m' [trace [items [before [Hrun [Hafter [Hbefore [Hlisted _]]]]]]]].
  - intros port device. simpl.
    destruct (String.eqb_spec port "/dev/ttyUSB0") as [->|_].
    + intros Hsome. inversion Hsome. reflexivity.
    + destruct (String.eqb_spec port "/dev/ttyACM0") as [->|_]; [|discriminate].
      intros Hsome. inversion Hsome. reflexivity.
  - reflexivity.
  - exists m', trace, items, before. auto.
Defined.

(** *** Aggregated progress, again *)




(** *** Listing serial ports *)

Lemma enum_values_run (only_list_usb : bool) (values : list (string * string)) :
  forall base_list,
    enum_values only_list_usb values base_list =
      (base_list
       ++ map snd (filter (fun value =>
                             negb only_list_usb || str_contains "USBSER" (fst value))
                          values))%list.
Proof.
  induction values as [|value values IH]; intros base_list.
  - simpl. now rewrite app_nil_r.
  - cbn [enum_values filter]. rewrite IH.
    destruct (negb only_list_usb || str_contains "USBSER" (fst value)).
    + cbn [map]. now rewrite <- app_assoc.
    + reflexivity.
Qed.

(** X23: on a host that is not Windows, the USB-only listing consists of
    exactly the paths matched by one of the three USB patterns that do not
    contain "Bluetooth"; the registry is not consulted. *)
Theorem usb_listing_excludes_bluetooth :
  forall (host : Host) (port : string),
    host_system host <> "Windows" ->
    In port (getSerialPortList host true)
    <-> (In port (glob_glob host "/dev/ttyUSB*")
         \/ In port (glob_glob host "/dev/ttyACM*")
         \/ In port (glob_glob host "/dev/cu.usb*"))
        /\ str_contains "Bluetooth" port = false.
Proof.
  intros host port Hsys. apply String.eqb_neq in Hsys.
  unfold getSerialPortList. rewrite Hsys. cbn [app].
  rewrite filter_In, !in_app_iff, negb_true_iff. tauto.
Qed.

Lemma usb_listing_excludes_bluetooth_witness :
  In "/dev/ttyACM0"
     (getSerialPortList
        {| host_system := "Darwin"; winreg_SERIALCOMM := None;
           glob_glob := fun pattern =>
             if String.eqb pattern "/dev/ttyACM*" then ["/dev/ttyACM0"]
             else if String.eqb pattern "/dev/cu.usb*" then ["/dev/cu.usbBluetooth-1"]
             else [] |} true)
  /\ ~ In "/dev/cu.usbBluetooth-1"
       (getSerialPortList
          {| host_system := "Darwin"; winreg_SERIALCOMM := None;
             glob_glob := fun pattern =>
               if String.eqb pattern "/dev/ttyACM*" then ["/dev/ttyACM0"]
               else if String.eqb pattern "/dev/cu.usb*" then ["/dev/cu.usbBluetooth-1"]
               else [] |} true).
Proof.
  split.
  - apply (usb_listing_excludes_bluetooth
             {| host_system := "Darwin"; winreg_SERIALCOMM := None;
                glob_glob := fun pattern =>
                  if String.eqb pattern "/dev/ttyACM*" then ["/dev/ttyACM0"]
                  else if String.eqb pattern "/dev/cu.usb*" then ["/dev/cu.usbBluetooth-1"]
                  else [] |} "/dev/ttyACM0").
    + discriminate.
    + split; [simpl; auto | reflexivity].
  - intros Hin.
    apply (usb_listing_excludes_bluetooth
             {| host_system := "Darwin"; winreg_SERIALCOMM := None;
                glob_glob := fun pattern =>
                  if String.eqb pattern "/dev/ttyACM*" then ["/dev/ttyACM0"]
                  else if String.eqb pattern "/dev/cu.usb*" then ["/dev/cu.usbBluetooth-1"]
                  else [] |} "/dev/cu.usbBluetooth-1") in Hin.
    + destruct Hin as [_ Hin]. vm_compute in Hin. discriminate Hin.
    + discriminate.
Defined.

(** X24: on Windows the listing never consults the file system: when the
    registry key cannot be opened the result is empty, otherwise it is
    the data of the key's values in their order, restricted, when only USB
    ports are asked for, to the values whose name contains "USBSER". *)
Theorem windows_listing_reads_the_registry :
  forall (host : Host) (only_list_usb : bool),
    host_system host = "Windows" ->
    getSerialPortList host only_list_usb =
      match winreg_SERIALCOMM host with
      | None => []
      | Some values =>
          map snd (filter (fun value =>
                             negb only_list_usb || str_contains "USBSER" (fst value))
                          values)
      end.
Proof.
  intros host only_list_usb Hsys. unfold getSerialPortList.
  rewrite Hsys. cbn [String.eqb Ascii.eqb Bool.eqb].
  destruct (winreg_SERIALCOMM host) as [values|]; [|reflexivity].
  now rewrite enum_values_run.
Qed.

Lemma windows_listing_reads_the_registry_witness :
  getSerialPortList
    {| host_system := "Windows";
       winreg_SERIALCOMM := Some [("\Device\Serial0", "COM1"); ("\Device\USBSER000", "COM3")];
       glob_glob := fun _ => ["/dev/ttyUSB0"] |} true
  = ["COM3"].
Proof.
  apply (windows_listing_reads_the_registry
           {| host_system := "Windows";
              winreg_SERIALCOMM :=
                Some [("\Device\Serial0", "COM1"); ("\Device\USBSER000", "COM3")];
              glob_glob := fun _ => ["/dev/ttyUSB0"] |} true).
  reflexivity.
Defined.

(** *** One round of the update thread *)



End ManagerLaws.
